(** * modelchimp client: the Tracker and its event delivery pipeline

    A shallow embedding of [modelchimp/__init__.py] (class [Tracker]) and
    [modelchimp/log.py], with the properties of the delivery pipeline
    stated over it.

    Python values that reach the Tracker are a small tagged universe
    ([pyval]); every method is a function from the world before the call to
    the world after it together with its outcome (a returned value or a
    raised exception).  Everything the process does to the outside (log
    records, events put on the queue, requests on the REST connection,
    threads started and stopped) is appended, in order, to one history. *)

From Stdlib Require Import ZArith String Ascii List Lia Bool.
From stdpp Require Import base list strings gmap sorting.
Import ListNotations.

Set Warnings "-register-all".
Local Open Scope string_scope.
Local Open Scope Z_scope.

(** ** Python values *)

Definition bytes := list Byte.byte.

(** The values a caller can hand to the Tracker.  A float is carried as its
    IEEE-754 bit pattern: the Tracker never computes with it, it only asks
    for its type and its truth value.  [PEstimator d] is an instance of
    [sklearn.base.BaseEstimator] whose [get_params()] returns the dict [d];
    [PObj] is an instance of any other class. *)
Inductive pyval : Type :=
| PNone
| PBool (b : bool)
| PInt (z : Z)
| PFloat (bits : Z)
| PStr (s : string)
| PBytes (b : bytes)
| PDict (d : list (pyval * pyval))
| PList (l : list pyval)
| PObj (cls : string) (oid : nat)
| PEstimator (params : list (pyval * pyval)).

Inductive pytype := T_str | T_int | T_float | T_dict.

(** [isinstance(v, ty)]; [bool] is a subclass of [int]. *)
Definition isinstance (v : pyval) (ty : pytype) : bool :=
  match ty, v with
  | T_str, PStr _ => true
  | T_int, PInt _ => true
  | T_int, PBool _ => true
  | T_float, PFloat _ => true
  | T_dict, PDict _ => true
  | _, _ => false
  end.

(** [isinstance(v, (t1, t2, ...))]. *)
Definition isinstance_any (v : pyval) (tys : list pytype) : bool :=
  existsb (isinstance v) tys.

(** Truth value of [v] as tested by [if v] / [not v]. *)
Definition truthy (v : pyval) : bool :=
  match v with
  | PNone => false
  | PBool b => b
  | PInt z => negb (z =? 0)
  | PFloat bits => negb ((bits =? 0) || (bits =? 2 ^ 63))
  | PStr s => negb (String.eqb s "")
  | PBytes b => match b with [] => false | _ => true end
  | PDict d => match d with [] => false | _ => true end
  | PList l => match l with [] => false | _ => true end
  | PObj _ _ => true
  | PEstimator _ => true
  end.

Definition is_none (v : pyval) : bool :=
  match v with PNone => true | _ => false end.

Inductive exn :=
| TypeError | RuntimeError | AttributeError | OSError
| ZlibError | UnpicklingError | PicklingError | JSONDecodeError.

Inductive outcome (A : Type) : Type :=
| Return (a : A)
| Raise (e : exn).
Arguments Return {A} a.
Arguments Raise {A} e.

(** ** Events, requests and the history of effects *)

(** [modelchimp.enum.ClientEvent], the members the Tracker uses. *)
Inductive ClientEvent :=
| EXPERIMENT_START | EXPERIMENT_END | CODE_FILE
| MODEL_PARAM | EVAL_PARAM | DURATION_PARAM | DATASET_ID.

(** An event dict [{'type': .., 'value': .., 'epoch': ..}]; [ev_epoch] is
    [None] when the dict has no ['epoch'] key. *)
Record Event := mkEvent {
  ev_type : ClientEvent;
  ev_value : pyval;
  ev_epoch : option pyval
}.

Record Response := mkResponse {
  status_code : Z;
  content : bytes;
  text : string
}.

Inductive Request :=
| CreateExperiment (experiment_id : pyval) (file : string)
| Get (url : string)
| Post (url : string) (data : list (string * pyval)) (files : string * bytes).

Inductive Thread := WebSocket (address : string) | Dispatcher.

(** [logging] levels, with their numeric values. *)
Inductive Level := DEBUG | INFO | WARNING.

Definition level_no (l : Level) : Z :=
  match l with DEBUG => 10 | INFO => 20 | WARNING => 30 end.

Inductive Effect :=
| Log (lvl : Level) (msg : string)
| Put (e : Event)
| Req (r : Request)
| ThreadStart (th : Thread)
| ThreadStop (th : Thread)
| AtexitRegister (self : nat)
| SklearnLoader.

(** What the methods of one Tracker can touch: the history (oldest effect
    first), the file system and the number of clock readings so far. *)
Record World := mkWorld {
  hist : list Effect;
  fs : gmap string bytes;
  ticks : nat
}.

Definition M (A : Type) : Type := World -> World * outcome A.

Definition ret {A} (a : A) : M A := fun w => (w, Return a).
Definition raise {A} (e : exn) : M A := fun w => (w, Raise e).
Definition bind {A B} (c : M A) (k : A -> M B) : M B :=
  fun w => match c w with
           | (w', Return a) => k a w'
           | (w', Raise e) => (w', Raise e)
           end.

Notation "x <- c1 ;; c2" := (bind c1 (fun x => c2))
  (at level 100, c1 at next level, right associativity).
Notation "c1 ;;; c2" := (bind c1 (fun _ => c2))
  (at level 100, right associativity).

Definition emit (e : Effect) : M unit :=
  fun w => ({| hist := hist w ++ [e]; fs := fs w; ticks := ticks w |}, Return tt).

(** ** Projections of a history *)

Definition puts (h : list Effect) : list Event :=
  flat_map (fun e => match e with Put ev => [ev] | _ => [] end) h.

Definition requests (h : list Effect) : list Request :=
  flat_map (fun e => match e with Req r => [r] | _ => [] end) h.

Definition logs (h : list Effect) : list (Level * string) :=
  flat_map (fun e => match e with Log l m => [(l, m)] | _ => [] end) h.

Definition starts (h : list Effect) : list Thread :=
  flat_map (fun e => match e with ThreadStart t => [t] | _ => [] end) h.

Definition stops (h : list Effect) : list Thread :=
  flat_map (fun e => match e with ThreadStop t => [t] | _ => [] end) h.

(** ** log.py *)

(** [get_logger] sets the logger's level to [logging.INFO]: a record below
    that level is discarded, any other is handed to the stream handler. *)
Definition logger_level : Level := INFO.

Definition logger_log (lvl : Level) (msg : string) : M unit :=
  if level_no logger_level <=? level_no lvl then emit (Log lvl msg) else ret tt.

Definition logger_warning := logger_log WARNING.
Definition logger_info := logger_log INFO.
Definition logger_debug := logger_log DEBUG.

(** [event_queue.put(ev)] on the module-level queue. *)
Definition event_queue_put (ev : Event) : M unit := emit (Put ev).

(** ** The Tracker object *)

(** The attributes of a [RestConnection] the Tracker reads. *)
Record RestConnection := mkRest {
  rest_address : string;
  rest_key : pyval;
  rest_experiment_name : pyval;
  project_id : pyval;
  model_id : pyval
}.

Record Tracker := mkTracker {
  key : pyval;
  experiment_name : pyval;
  host : pyval;
  rest : option RestConnection;
  tracking : bool;
  auto_log : bool;
  _experiment_start : string;
  _experiment_end : option string;
  _experiment_file : option string;
  experiment_id : pyval;
  web_socket : option Thread;
  tracker_thread : option Thread
}.

(** ** Logging methods *)

Definition is_number (v : pyval) : bool :=
  isinstance v T_int || isinstance v T_float.

Definition add_param (self : Tracker) (param_name param_value : pyval) : M pyval :=
  match param_name with
  | PStr name =>
      if String.eqb name "" then
        logger_warning "param_name cannot be empty" ;;; ret PNone
      else if negb (tracking self) then ret PNone
      else
        event_queue_put {| ev_type := MODEL_PARAM;
                           ev_value := PDict [(PStr name, param_value)];
                           ev_epoch := None |} ;;;
        ret PNone
  | _ => logger_warning "param_name should be a string" ;;; ret PNone
  end.

Definition add_metric (self : Tracker) (metric_name metric_value epoch : pyval)
  : M pyval :=
  match metric_name with
  | PStr name =>
      if String.eqb name "" then
        logger_warning "metric_name cannot be empty" ;;; ret PNone
      else if negb (is_number metric_value) then
        logger_warning "metric_value should be a number" ;;; ret PNone
      else if negb (is_none epoch) && negb (is_number epoch) then
        logger_warning "epoch should be a number" ;;; ret PNone
      else if negb (tracking self) then ret PNone
      else
        event_queue_put {| ev_type := EVAL_PARAM;
                           ev_value := PDict [(PStr name, metric_value)];
                           ev_epoch := Some epoch |} ;;;
        ret PNone
  | _ => logger_warning "metric_name should be a string" ;;; ret PNone
  end.

Definition add_duration_at_epoch (self : Tracker) (tag seconds_elapsed epoch : pyval)
  : M pyval :=
  match tag with
  | PStr name =>
      if String.eqb name "" then
        logger_warning "tag cannot be empty" ;;; ret PNone
      else if negb (is_number seconds_elapsed) then
        logger_warning "seconds_elapsed should be a number" ;;; ret PNone
      else if is_none epoch then
        logger_warning "epoch should be present" ;;; ret PNone
      else if negb (is_none epoch) && negb (is_number epoch) then
        logger_warning "epoch should be a number" ;;; ret PNone
      else if negb (tracking self) then ret PNone
      else
        event_queue_put {| ev_type := DURATION_PARAM;
                           ev_value := PDict [(PStr name, seconds_elapsed)];
                           ev_epoch := Some epoch |} ;;;
        ret PNone
  | _ => logger_warning "tag should be a string" ;;; ret PNone
  end.

Definition add_dataset_id (self : Tracker) (id : pyval) : M pyval :=
  if negb (isinstance_any id [T_int; T_float; T_str]) then
    logger_warning "Dataset id should be a number or string" ;;; ret PNone
  else if negb (tracking self) then ret PNone
  else
    event_queue_put {| ev_type := DATASET_ID; ev_value := id; ev_epoch := None |} ;;;
    ret PNone.

(** ** Collaborators

    Code the Tracker calls that lives outside [__init__.py]: the other
    modules of the package ([utils], [connection_thread]), the interpreter
    ([str], [sys.getsizeof], the import system) and the libraries
    ([json], [zlib], [pickle], [cloudpickle]).  The Tracker is verified for
    every behaviour of these. *)
Record Collaborators := mkCollaborators {
  (** [utils.current_string_datetime()], at the n-th reading of the clock *)
  current_string_datetime : nat -> string;
  (** [utils.generate_uid()] *)
  generate_uid : nat -> string;
  (** [utils.is_uuid4_pattern] *)
  is_uuid4_pattern : string -> bool;
  (** whether the code that constructs the Tracker belongs to a module
      with a [__file__]: [inspect.getmodule] finds none for code run by
      [exec], by [python -c] or typed into the interpreter *)
  caller_in_module : bool;
  (** [__file__] of the module that constructs the Tracker, when there is one *)
  caller_file : string;
  (** [RestConnection.create_experiment]: the flag it returns and the
      connection after the call, given what the process did so far *)
  create_experiment :
    list Effect -> RestConnection -> pyval -> string -> bool * RestConnection;
  (** the response of the service to a [get] or [post], given what the
      process did so far *)
  serve : list Effect -> Request -> Response;
  (** [str(v)] for a [v] that is not a string *)
  str_of : pyval -> string;
  (** [s + v] for a string [s] and an instance [v] of a class of the
      program: the call of [v.__radd__], whose value is not looked at;
      [Raise TypeError] when the class has no such method *)
  str_add_object : pyval -> outcome unit;
  (** whether [plt.savefig(path)] can create the file at [path]: the
      directory of [path] exists and can be written to *)
  savefig_creates : string -> bool;
  (** [sys.getsizeof] of a bytes object *)
  getsizeof : bytes -> Z;
  (** whether [from sklearn.base import BaseEstimator] succeeds *)
  sklearn_installed : bool;
  (** [json.dumps] / [json.loads]; [None] when they raise *)
  json_dumps : pyval -> option string;
  json_loads : string -> option pyval;
  (** [cloudpickle.dumps(obj, protocol)] / [pickle.loads]; [None] when they raise *)
  cloudpickle_dumps : pyval -> Z -> option bytes;
  pickle_loads : bytes -> option pyval;
  (** [zlib.compressobj(level, method, wbits)] with its [compress] and
      [flush], and [zlib.decompress(data, wbits)] ([None] when it raises) *)
  zstream : Type;
  zlib_compressobj : Z -> Z -> Z -> zstream;
  z_compress : zstream -> bytes -> bytes * zstream;
  z_flush : zstream -> bytes;
  zlib_decompress : bytes -> Z -> option bytes
}.

(** [zlib.DEFLATED] *)
Definition zlib_DEFLATED : Z := 8.

(** [str.strip()]: the characters [str.isspace] accepts below 128. *)
Definition is_space (c : ascii) : bool :=
  let n := Z.of_nat (nat_of_ascii c) in
  (n =? 32) || ((9 <=? n) && (n <=? 13)) || ((28 <=? n) && (n <=? 31)).

Fixpoint lstrip (s : string) : string :=
  match s with
  | EmptyString => EmptyString
  | String c r => if is_space c then lstrip r else s
  end.

Definition string_rev (s : string) : string :=
  string_of_list_ascii (rev (list_ascii_of_string s)).

Definition strip (s : string) : string :=
  string_rev (lstrip (string_rev (lstrip s))).

(** [d[k] = v] on a dict with string keys: an existing key keeps its place. *)
Fixpoint dict_set (d : list (string * pyval)) (k : string) (v : pyval)
  : list (string * pyval) :=
  match d with
  | [] => [(k, v)]
  | (k', v') :: r =>
      if String.eqb k' k then (k', v) :: r else (k', v') :: dict_set r k v
  end.

Definition str_keys (d : list (string * pyval)) : list (pyval * pyval) :=
  map (fun kv => (PStr (fst kv), snd kv)) d.

(** [for x in l: body(x)] *)
Fixpoint for_each {A B} (l : list A) (body : A -> M B) : M unit :=
  match l with
  | [] => ret tt
  | x :: r => body x ;;; for_each r body
  end.

Section Methods.

Variable E : Collaborators.

(** ["%s" % (v,)] *)
Definition fmt (v : pyval) : string :=
  match v with PStr s => s | _ => str_of E v end.

(** [self.rest.get(url)] and [self.rest.post(url, data=.., files=..)]: one
    request on the bulk transport, answered by the service. *)
Definition rest_call (r : Request) : M Response :=
  fun w => ({| hist := hist w ++ [Req r]; fs := fs w; ticks := ticks w |},
            Return (serve E (hist w) r)).

Definition rest_get (c : RestConnection) (url : string) : M Response :=
  rest_call (Get url).

Definition rest_post (c : RestConnection) (url : string)
    (data : list (string * pyval)) (files : string * bytes) : M Response :=
  rest_call (Post url data files).

(** [current_string_datetime()] *)
Definition now : M string :=
  fun w => ({| hist := hist w; fs := fs w; ticks := S (ticks w) |},
            Return (current_string_datetime E (ticks w))).

Definition add_multiple_params (self : Tracker) (params_dict : pyval) : M pyval :=
  match params_dict with
  | PDict d =>
      if negb (tracking self) then ret PNone
      else for_each d (fun kv => add_param self (fst kv) (snd kv)) ;;; ret PNone
  | _ => logger_warning "Please provide a dict for multiple parameters" ;;; ret PNone
  end.

Definition add_multiple_metrics (self : Tracker) (metrics_dict epoch : pyval)
  : M pyval :=
  match metrics_dict with
  | PDict d =>
      if negb (tracking self) then ret PNone
      else for_each d (fun kv => add_metric self (fst kv) (snd kv) epoch) ;;; ret PNone
  | _ => logger_warning "Please provide a dict for multiple parameters" ;;; ret PNone
  end.

(** [__get_compressed_picke] *)
Definition get_compressed_picke (obj : pyval) : M (bytes * Z) :=
  match cloudpickle_dumps E obj (-1) with
  | None => raise PicklingError
  | Some pickled_obj =>
      let z := zlib_compressobj E (-1) zlib_DEFLATED 31 in
      let filesize := getsizeof E pickled_obj in
      let (chunk, z') := z_compress E z pickled_obj in
      let gzip_compressed_pickle := (chunk ++ z_flush E z')%list in
      ret (gzip_compressed_pickle, filesize)
  end.

Definition add_custom_object (self : Tracker) (name object : pyval) : M pyval :=
  match name with
  | PStr nm =>
      match rest self with
      | None =>
          logger_info "Please instantiate the ModelChimp Tracker to store custom objects" ;;;
          ret PNone
      | Some c =>
          if negb (tracking self) then ret PNone
          else
            cf <- get_compressed_picke object ;;
            let result := [("name", PStr nm); ("filesize", PInt (snd cf));
                           ("project", project_id c); ("ml_model", model_id c)] in
            let custom_object_url :=
              "api/experiment-custom-object/create/" +:+ fmt (project_id c) +:+ "/" in
            logger_info ("Uploading custom object: " +:+ nm) ;;;
            save_request <- rest_post c custom_object_url result
                              ("custom_object_file", fst cf) ;;
            (if status_code save_request =? 201 then
               logger_info (nm +:+ ": custom object was successfully saved")
             else logger_info "Custom object could not be saved.") ;;;
            ret PNone
      end
  | _ => logger_warning "Custom object name should be a string" ;;; ret PNone
  end.

(** The decoding at the end of [pull_custom_object]. *)
Definition decode_custom_object (custom_object : bytes) : M pyval :=
  match zlib_decompress E custom_object 31 with
  | None => raise ZlibError
  | Some pickled =>
      match pickle_loads E pickled with
      | None => raise UnpicklingError
      | Some obj => ret obj
      end
  end.

Definition pull_custom_object (self : Tracker) (id : pyval) : M pyval :=
  match rest self with
  | None => raise AttributeError
  | Some c =>
      let pull_object_url :=
        "api/experiment-custom-object/retrieve/" +:+ fmt (project_id c)
          +:+ "/?custom-object-id=" +:+ fmt id in
      match id with
      | PStr sid =>
          if negb (is_uuid4_pattern E sid) then
            logger_warning
              "Given custom object id is of wrong pattern. Please, insert the correct id" ;;;
            ret PNone
          else if negb (tracking self) then ret PNone
          else
            logger_info ("Downloading custom object with the id: " +:+ sid) ;;;
            request <- rest_get c pull_object_url ;;
            (if status_code request =? 400 then
               logger_info "Unable to retrieve custom object. Is it a valid custom object id?"
             else ret tt) ;;;
            decode_custom_object (content request)
      | _ => logger_warning "Custom object id should be a string" ;;; ret PNone
      end
  end.

Definition pull_params (self : Tracker) (experiment_id : pyval) : M pyval :=
  match experiment_id with
  | PStr eid =>
      let pull_params_url := "api/experiment-pull-param/?experiment-id=" +:+ eid in
      if negb (tracking self) then ret PNone
      else
        match rest self with
        | None => raise AttributeError
        | Some c =>
            request <- rest_get c pull_params_url ;;
            if status_code request =? 400 then
              logger_info "Have you provided the correct experiment id?" ;;; ret PNone
            else if status_code request =? 403 then
              logger_info "You don't have permission for this experiment" ;;; ret PNone
            else
              match json_loads E (text request) with
              | None => raise JSONDecodeError
              | Some params => ret params
              end
        end
  | PObj _ _ =>
      (* [str + obj] is left to the class of [obj]; the isinstance check
         comes after it *)
      match str_add_object E experiment_id with
      | Raise e => raise e
      | Return _ => logger_warning "experiment_id should be a string" ;;; ret PNone
      end
  | _ =>
      (* [str + v] raises for a [v] of a built-in type that is not a string,
         before the isinstance check is reached *)
      raise TypeError
  end.

(** A [matplotlib.pyplot] handle: whether its current axes hold data, and
    what [savefig(.., format="svg")] writes. *)
Record Plot := mkPlot {
  has_data : bool;
  svg : bytes
}.

Definition fs_write (path : string) (data : bytes) : M unit :=
  fun w => ({| hist := hist w; fs := <[path := data]> (fs w); ticks := ticks w |},
            Return tt).

Definition fs_remove (path : string) : M unit :=
  fun w => ({| hist := hist w; fs := delete path (fs w); ticks := ticks w |},
            Return tt).

Definition fs_read (path : string) : M (option bytes) :=
  fun w => (w, Return (fs w !! path)).

(** [plt.savefig(path, bbox_inches="tight", format="svg")]: the plot is
    written to [path], or the call raises when the file cannot be created
    there (a name such as ["plots/loss"] in a directory without [plots/]). *)
Definition savefig (p : Plot) (path : string) : M unit :=
  if savefig_creates E path then fs_write path (svg p) else raise OSError.

(** [open(path, 'rb')] and what is read from it. *)
Definition open_rb (path : string) : M bytes :=
  f <- fs_read path ;;
  match f with
  | Some data => ret data
  | None => raise OSError
  end.

Definition add_custom_plot (self : Tracker) (name : pyval) (plt : option Plot)
  : M pyval :=
  match name with
  | PStr nm =>
      match rest self with
      | None =>
          logger_info "Please instantiate the ModelChimp Tracker to store custom plots" ;;;
          ret PNone
      | Some c =>
          if negb (tracking self) then ret PNone
          else
            match plt with
            | None => raise AttributeError          (* [None.gca()] *)
            | Some p =>
                if negb (has_data p) then
                  logger_warning "Empty plot" ;;; ret PNone
                else
                  let filepath := strip ("./" +:+ nm +:+ ".svg") in
                  savefig p filepath ;;;
                  imageFile <- open_rb filepath ;;
                  let filesize := Z.of_nat (length imageFile) in
                  let result := [("name", PStr nm); ("filesize", PInt filesize);
                                 ("project", project_id c); ("ml_model", model_id c)] in
                  let mat_plot_url :=
                    "api/experiment-mat-plot/create/" +:+ fmt (project_id c) +:+ "/" in
                  logger_info ("Uploading custom plot: " +:+ nm) ;;;
                  save_request <- rest_post c mat_plot_url result
                                    ("mat_plot_file", imageFile) ;;
                  (if status_code save_request =? 201 then
                     logger_info (nm +:+ ": custom plot was successfully saved")
                   else logger_info "Custom plot could not be saved.") ;;;
                  exists_ <- fs_read filepath ;;
                  (if bool_decide (is_Some exists_) then
                     logger_debug "Removing temporary file." ;;; fs_remove filepath
                   else ret tt) ;;;
                  ret PNone
            end
      end
  | _ => logger_warning "Custom plot name should be a string" ;;; ret PNone
  end.

(** The loop [for k in metric_dict: if not isinstance(metric_dict[k],
    (int, float)): warn; del(metric_dict[k])].  Deleting a key changes the
    size of the dict under its own iterator, so the step of the [for] that
    follows the first deletion raises [RuntimeError] (also when the deleted
    key was the last one). *)
Fixpoint drop_non_numeric_metrics (d : list (pyval * pyval)) : M unit :=
  match d with
  | [] => ret tt
  | (k, v) :: r =>
      if negb (isinstance_any v [T_int; T_float]) then
        logger_warning ("Metric - " +:+ fmt k +:+ " is not a number") ;;;
        raise RuntimeError
      else drop_non_numeric_metrics r
  end.

Definition add_image (self : Tracker) (filepath : string)
    (metric_dict custom_file_name epoch : pyval) : M pyval :=
  let url := "api/experiment-images/add-image/" in
  f <- fs_read filepath ;;
  match f with
  | None => logger_warning ("Image file does not exist at " +:+ filepath) ;;; ret PNone
  | Some image =>
      if truthy metric_dict && negb (isinstance metric_dict T_dict) then
        logger_warning ("metric_dict should be a dictionary for file: " +:+ filepath) ;;;
        ret PNone
      else
        (if truthy metric_dict then
           match metric_dict with
           | PDict d => drop_non_numeric_metrics d
           | _ => ret tt
           end
         else ret tt) ;;;
        if truthy custom_file_name && negb (isinstance custom_file_name T_str) then
          logger_warning ("custom_file_name should be a string for file: " +:+ filepath) ;;;
          ret PNone
        else if truthy epoch && negb (isinstance epoch T_int) then
          logger_warning ("epoch should be a dictionary for file: " +:+ filepath) ;;;
          ret PNone
        else
          match rest self with
          | None =>
              logger_info "Please instantiate the ModelChimp Tracker to store images" ;;;
              ret PNone
          | Some c =>
              if negb (tracking self) then ret PNone
              else
                match json_dumps E metric_dict with
                | None => raise TypeError
                | Some dumped =>
                    let result := [("custom_file_name", custom_file_name);
                                   ("metric_dict", PStr dumped);
                                   ("epoch", epoch);
                                   ("project", project_id c);
                                   ("ml_model", model_id c)] in
                    logger_info ("Uploading image: " +:+ filepath) ;;;
                    save_request <- rest_post c (url +:+ fmt (project_id c) +:+ "/")
                                      result ("experiment_image", image) ;;
                    (if negb (status_code save_request =? 201) then
                       logger_info ("Image could not be saved: " +:+ filepath)
                     else ret tt) ;;;
                    ret PNone
                end
          end
  end.

(** The dict [result] that [add_model_params] builds when a model name is
    given: [result["%s__%s" % (model_name, k)] = params[k]] for every key. *)
Definition prefixed (model_name : string) (k : pyval) : string :=
  model_name +:+ "__" +:+ fmt k.

Definition prefix_params (model_name : string) (params : list (pyval * pyval))
  : list (string * pyval) :=
  fold_left (fun result kv => dict_set result (prefixed model_name (fst kv)) (snd kv))
            params [].

Definition add_model_params (self : Tracker) (model model_name : pyval) : M pyval :=
  if truthy model_name && negb (isinstance model_name T_str) then
    logger_warning "add_model_params: model_name should be a string" ;;; ret PNone
  else if negb (sklearn_installed E) then
    logger_warning "add_model_params: sklearn models only" ;;; ret PNone
  else
    match model with
    | PEstimator params =>
        if negb (tracking self) then ret PNone
        else
          let result :=
            match model_name with
            | PStr nm =>
                if truthy model_name then PDict (str_keys (prefix_params nm params))
                else PDict params
            | _ => PDict params
            end in
          add_multiple_params self result
    | _ => logger_warning "add_model_params: model is not supported" ;;; ret PNone
    end.

(** ** Construction, the exit hook and the life of a process *)

(** The interpreter's state around the Trackers: their world, the Tracker
    objects themselves (a bound method [self._on_end] refers to its object
    by position), the [atexit] registry in registration order, and
    [settings.current_tracker]. *)
Record Process := mkProcess {
  world : World;
  objs : list Tracker;
  atexit_registry : list nat;
  current_tracker : option nat
}.

Definition lift {A} (c : M A) (p : Process) : Process * outcome A :=
  let (w, o) := c (world p) in
  ({| world := w; objs := objs p; atexit_registry := atexit_registry p;
      current_tracker := current_tracker p |}, o).

Definition in_world (c : M unit) (p : Process) : Process := fst (lift c p).

Definition store (me : nat) (self : Tracker) (p : Process) : Process :=
  {| world := world p;
     objs := if decide (me < length (objs p))%nat then <[me := self]> (objs p)
             else objs p ++ [self];
     atexit_registry := atexit_registry p;
     current_tracker := current_tracker p |}.

Definition atexit_register (me : nat) (p : Process) : Process :=
  {| world := world p; objs := objs p;
     atexit_registry := atexit_registry p ++ [me];
     current_tracker := current_tracker p |}.

Definition set_current_tracker (me : nat) (p : Process) : Process :=
  {| world := world p; objs := objs p; atexit_registry := atexit_registry p;
     current_tracker := Some me |}.

(** [self.rest.create_experiment(experiment_id, file)]: one request, whose
    answer is the flag and the connection it leaves. *)
Definition rest_create_experiment (c : RestConnection) (id : pyval) (file : string)
  : M (bool * RestConnection) :=
  fun w => ({| hist := hist w ++ [Req (CreateExperiment id file)];
               fs := fs w; ticks := ticks w |},
            Return (create_experiment E (hist w) c id file)).

(** [RestConnection(rest_address, key, experiment_name)]: the project and
    model ids are not known before the experiment is created. *)
Definition RestConnection_new (rest_address : string) (key experiment_name : pyval)
  : RestConnection :=
  {| rest_address := rest_address; rest_key := key;
     rest_experiment_name := experiment_name;
     project_id := PNone; model_id := PNone |}.

Definition ws_address (self : Tracker) : string :=
  fmt (host self) +:+ "/ws/tracker/" +:+ fmt (experiment_id self) +:+ "/".

(** Lines 56-58 of [_initialize]: the file of the module whose code
    constructs the Tracker.  For code that belongs to no module
    [inspect.getmodule] returns [None], and [module.__file__] raises. *)
Definition caller_lookup : outcome string :=
  if caller_in_module E then Return (caller_file E) else Raise AttributeError.

(** [_initialize] from line 60 on, for the Tracker stored at position [me],
    once the file of the calling module is known. *)
Definition _initialize_with (file : string) (me : nat) (self : Tracker) (p : Process)
  : Process :=
  let rest_address := fmt (host self) +:+ "/" in
  let c := RestConnection_new rest_address (key self) (experiment_name self) in
  let with_rest (c : RestConnection) ws tt_ :=
    {| key := key self; experiment_name := experiment_name self; host := host self;
       rest := Some c; tracking := tracking self; auto_log := auto_log self;
       _experiment_start := _experiment_start self;
       _experiment_end := _experiment_end self;
       _experiment_file := Some file;
       experiment_id := experiment_id self;
       web_socket := ws; tracker_thread := tt_ |} in
  if negb (tracking self) then store me (with_rest c None None) p
  else
    match lift (rest_create_experiment c (experiment_id self) file) p with
    | (p, Raise _) => store me (with_rest c None None) p
    | (p, Return (experiment_created_flag, c)) =>
        if negb experiment_created_flag then store me (with_rest c None None) p
        else
          let ws := WebSocket (ws_address self) in
          let p := in_world (emit (ThreadStart ws)) p in
          let p := in_world (emit (ThreadStart Dispatcher)) p in
          let p := in_world (event_queue_put
                               {| ev_type := EXPERIMENT_START;
                                  ev_value := PStr (_experiment_start self);
                                  ev_epoch := None |}) p in
          let p := in_world (event_queue_put
                               {| ev_type := CODE_FILE;
                                  ev_value := PDict [(PStr "filename", PStr file);
                                                     (PStr "experiment_id", experiment_id self)];
                                  ev_epoch := None |}) p in
          let p := store me (with_rest c (Some ws) (Some Dispatcher)) p in
          let p := set_current_tracker me p in
          let p := if auto_log self then in_world (emit SklearnLoader) p else p in
          let p := in_world (emit (AtexitRegister me)) p in
          atexit_register me p
    end.

(** [_initialize]: the lookup of the calling module, then the rest. *)
Definition _initialize (me : nat) (self : Tracker) (p : Process)
  : Process * outcome unit :=
  match caller_lookup with
  | Raise e => (p, Raise e)
  | Return file => (_initialize_with file me self p, Return tt)
  end.

(** The attribute assignments of [__init__], before [_initialize] runs:
    the start time is read from the clock, the experiment id is the given
    one or a fresh uid. *)
Definition Tracker_attrs (key host experiment_name : pyval) (tracking auto_log : bool)
    (existing_exp_id : pyval) (w : World) : Tracker :=
  {| key := key; experiment_name := experiment_name; host := host;
     rest := None; tracking := tracking; auto_log := auto_log;
     _experiment_start := current_string_datetime E (ticks w);
     _experiment_end := None;
     _experiment_file := None;
     experiment_id := if truthy existing_exp_id then existing_exp_id
                      else PStr (generate_uid E (S (ticks w)));
     web_socket := None; tracker_thread := None |}.

(** [Tracker(key, host, experiment_name, tracking, auto_log,
    existing_exp_id)] in the code of a module: the new object's position
    and the process after [__init__]. *)
Definition Tracker_init (key host experiment_name : pyval) (tracking auto_log : bool)
    (existing_exp_id : pyval) (p : Process) : nat * Process :=
  let me := length (objs p) in
  let self := Tracker_attrs key host experiment_name tracking auto_log
                            existing_exp_id (world p) in
  let (p, _) := lift now p in
  (me, _initialize_with (caller_file E) me self p).

(** [Tracker(...)] wherever it is called from: the process after
    [__init__], and the new object's position or the exception that
    [__init__] lets through, in which case the program gets no Tracker. *)
Definition Tracker_new (key host experiment_name : pyval) (tracking auto_log : bool)
    (existing_exp_id : pyval) (p : Process) : Process * outcome nat :=
  let me := length (objs p) in
  let self := Tracker_attrs key host experiment_name tracking auto_log
                            existing_exp_id (world p) in
  let (p, _) := lift now p in
  match _initialize me self p with
  | (p, Return _) => (p, Return me)
  | (p, Raise e) => (p, Raise e)
  end.

(** The flag [create_experiment] returns to a Tracker built by a process
    that has done nothing else yet. *)
Definition bootstrap_flag (self : Tracker) : bool :=
  fst (create_experiment E []
         (RestConnection_new (fmt (host self) +:+ "/") (key self) (experiment_name self))
         (experiment_id self) (caller_file E)).

(** [tracker_thread.stop()], the call as the Tracker issues it. *)
Definition thread_stop (th : option Thread) : M unit :=
  match th with
  | Some t => emit (ThreadStop t)
  | None => raise AttributeError
  end.

(** [_on_end], the bound method of the Tracker at position [me]. *)
Definition _on_end (me : nat) (p : Process) : Process :=
  match objs p !! me with
  | None => p
  | Some self =>
      let (p, t) := lift now p in
      let _experiment_end :=
        match t with Return s => s | Raise _ => EmptyString end in
      let self :=
        {| key := key self; experiment_name := experiment_name self; host := host self;
           rest := rest self; tracking := tracking self; auto_log := auto_log self;
           _experiment_start := _experiment_start self;
           _experiment_end := Some _experiment_end;
           _experiment_file := _experiment_file self;
           experiment_id := experiment_id self;
           web_socket := web_socket self; tracker_thread := tracker_thread self |} in
      let p := store me self p in
      let p := in_world (event_queue_put
                           {| ev_type := EXPERIMENT_END;
                              ev_value := PStr _experiment_end;
                              ev_epoch := None |}) p in
      in_world (thread_stop (tracker_thread self)) p
  end.

(** Interpreter termination: [atexit] runs every registered callback once,
    last registered first. *)
Definition run_atexit (p : Process) : Process :=
  fold_left (fun p me => _on_end me p) (rev (atexit_registry p)) p.

(** A call of a public method by the instrumented program. *)
Inductive Call :=
| Call_add_param (param_name param_value : pyval)
| Call_add_multiple_params (params_dict : pyval)
| Call_add_metric (metric_name metric_value epoch : pyval)
| Call_add_multiple_metrics (metrics_dict epoch : pyval)
| Call_add_duration_at_epoch (tag seconds_elapsed epoch : pyval)
| Call_add_dataset_id (id : pyval)
| Call_add_custom_object (name object : pyval)
| Call_pull_custom_object (id : pyval)
| Call_add_custom_plot (name : pyval) (plt : option Plot)
| Call_pull_params (experiment_id : pyval)
| Call_add_image (filepath : string) (metric_dict custom_file_name epoch : pyval)
| Call_add_model_params (model model_name : pyval).

Definition call (self : Tracker) (c : Call) : M pyval :=
  match c with
  | Call_add_param n v => add_param self n v
  | Call_add_multiple_params d => add_multiple_params self d
  | Call_add_metric n v e => add_metric self n v e
  | Call_add_multiple_metrics d e => add_multiple_metrics self d e
  | Call_add_duration_at_epoch t s e => add_duration_at_epoch self t s e
  | Call_add_dataset_id i => add_dataset_id self i
  | Call_add_custom_object n o => add_custom_object self n o
  | Call_pull_custom_object i => pull_custom_object self i
  | Call_add_custom_plot n plt => add_custom_plot self n plt
  | Call_pull_params i => pull_params self i
  | Call_add_image f m c e => add_image self f m c e
  | Call_add_model_params m n => add_model_params self m n
  end.

(** The instrumented program after it has built its Tracker: a sequence of
    calls on it; an exception that a call raises is not caught and ends the
    program. *)
Definition run_script (self : Tracker) (script : list Call) : M unit :=
  for_each script (call self).

(** One run of an instrumented program whose Tracker is built by the code
    of a module: the interpreter starts, the program builds a Tracker and
    calls its methods, the interpreter terminates and runs the exit
    handlers. *)
Definition boot (files : gmap string bytes) : Process :=
  {| world := {| hist := []; fs := files; ticks := 0 |};
     objs := []; atexit_registry := []; current_tracker := None |}.

Definition run_process (files : gmap string bytes)
    (key host experiment_name : pyval) (tracking auto_log : bool)
    (existing_exp_id : pyval) (script : list Call) : Process :=
  let (me, p) := Tracker_init key host experiment_name tracking auto_log
                              existing_exp_id (boot files) in
  let p :=
    match objs p !! me with
    | Some self => fst (lift (run_script self script) p)
    | None => p
    end in
  run_atexit p.


End Methods.

(** ** The delivery pipeline behind the queue *)

Module Pipeline.

(** Modelled from the spec: the connection states of the streaming
    transport ([connection_thread.py] is not among the sources), §3
    "Connection state". *)
Inductive ConnState :=
| DISCONNECTED | CONNECTING | CONNECTED | RECONNECTING | CLOSED.

(** Modelled from the spec: an event as the missing queue holds it, the
    event and the [sequence_number] it was given when it was enqueued
    (§3 "Event"). *)
Record Envelope := mkEnvelope {
  event : Event;
  sequence_number : nat
}.

(** Modelled from the spec: the event queue ([event_queue.py] is not among
    the sources), §3 "Queue" and §4.1: an ordered, unbounded sequence;
    [enqueue] appends under the queue's lock and assigns the sequence
    number there; removal is strictly first-in first-out. *)
Record Queue := mkQueue {
  items : list Envelope;
  next_seq : nat
}.

(** Modelled from the spec: [enqueue(event)] of the missing event queue
    (§4.1): a lock-protected append that assigns the sequence number. *)
Definition enqueue (e : Event) (q : Queue) : Queue :=
  {| items := items q ++ [ {| event := e; sequence_number := next_seq q |} ];
     next_seq := S (next_seq q) |}.

(** Modelled from the spec: [dequeue_blocking(timeout)] of the missing
    event queue (§4.1): the oldest event, or the sentinel [None]
    when the timeout elapses on an empty queue. *)
Definition dequeue (q : Queue) : option (Envelope * Queue) :=
  match items q with
  | [] => None
  | x :: r => Some (x, {| items := r; next_seq := next_seq q |})
  end.

(** Modelled from the spec: the streaming transport
    ([connection_thread.WSConnectionThread] is not among the sources), §4.3.
    [wire] is what its [send] calls have handed to the remote service,
    oldest first. *)
Record Transport := mkTransport {
  conn : ConnState;
  wire : list Envelope
}.

(** Modelled from the spec: what the missing transport's own maintenance
    loop does to the connection, the edges of the state machine of §4.3. *)
Inductive Transition :=
| connect_success | socket_error | retry_success | retry_failure | close.

Definition transit (t : Transition) (c : ConnState) : ConnState :=
  match c, t with
  | CLOSED, _ => CLOSED                       (* terminal *)
  | _, close => CLOSED
  | DISCONNECTED, connect_success => CONNECTED
  | CONNECTED, socket_error => RECONNECTING
  | RECONNECTING, retry_success => CONNECTED
  | RECONNECTING, retry_failure => RECONNECTING
  | c, _ => c
  end.

(** Modelled from the spec: [send(event)] of the missing transport (§4.3):
    the event goes out when the channel is connected;
    otherwise the "not sent" signal [false], never an exception. *)
Definition send (x : Envelope) (t : Transport) : bool * Transport :=
  match conn t with
  | CONNECTED => (true, {| conn := conn t; wire := wire t ++ [x] |})
  | _ => (false, t)
  end.

(** Modelled from the spec: the dispatcher ([tracker_thread.TrackerThread]
    is not among the sources), §4.2.  [retry] is the retry buffer: the
    event held during a disconnect and the loop iterations it has waited;
    [dropped] are the events given up with a logged warning. *)
Record State := mkState {
  queue : Queue;
  retry : option (Envelope * nat);
  transport : Transport;
  dropped : list Envelope;
  shutdown : bool
}.

(** Modelled from the spec: the missing pipeline when the experiment
    starts, nothing enqueued yet, the connection in state [c]. *)
Definition init (c : ConnState) : State :=
  {| queue := {| items := []; next_seq := 0 |};
     retry := None;
     transport := {| conn := c; wire := [] |};
     dropped := [];
     shutdown := false |}.

(** Modelled from the spec: one delivery attempt of the missing dispatcher
    (§4.2): send at once when connected; hold and
    re-attempt on the next iteration while the channel is coming up, for at
    most [max_spins] iterations, then warn and drop; log and go on when the
    transport is closed.  §4.2 names no case for [DISCONNECTED]: the channel
    is not up yet, the event is held like in [CONNECTING]. *)
Definition attempt (max_spins : nat) (x : Envelope) (spins : nat) (s : State) : State :=
  match conn (transport s) with
  | CONNECTED =>
      let (sent, t) := send x (transport s) in
      {| queue := queue s; retry := if sent then None else Some (x, S spins);
         transport := t; dropped := dropped s; shutdown := shutdown s |}
  | CLOSED =>
      {| queue := queue s; retry := None; transport := transport s;
         dropped := dropped s ++ [x]; shutdown := shutdown s |}
  | DISCONNECTED | CONNECTING | RECONNECTING =>
      if (spins <? max_spins)%nat then
        {| queue := queue s; retry := Some (x, S spins); transport := transport s;
           dropped := dropped s; shutdown := shutdown s |}
      else
        {| queue := queue s; retry := None; transport := transport s;
           dropped := dropped s ++ [x]; shutdown := shutdown s |}
  end.

(** Modelled from the spec: one iteration of the missing dispatcher's loop
    (§4.2): the held event first, so that no
    later event overtakes it (§5); otherwise the next event of the queue. *)
Definition iterate (max_spins : nat) (s : State) : State :=
  match retry s with
  | Some (x, spins) => attempt max_spins x spins s
  | None =>
      match dequeue (queue s) with
      | None => s
      | Some (x, q) =>
          attempt max_spins x 0
            {| queue := q; retry := None; transport := transport s;
               dropped := dropped s; shutdown := shutdown s |}
      end
  end.

(** Modelled from the spec: what the threads of the process do to the
    missing queue, dispatcher and transport (§5), one atomic step each: a producer
    thread enqueues, the dispatcher runs one iteration, the transport's
    maintenance loop changes the connection state. *)
Inductive Step :=
| Produce (thread : nat) (e : Event)
| Consume
| Link (t : Transition).

Definition step (max_spins : nat) (l : Step) (s : State) : State :=
  match l with
  | Produce _ e =>
      {| queue := enqueue e (queue s); retry := retry s; transport := transport s;
         dropped := dropped s; shutdown := shutdown s |}
  | Consume => iterate max_spins s
  | Link t =>
      {| queue := queue s; retry := retry s;
         transport := {| conn := transit t (conn (transport s));
                         wire := wire (transport s) |};
         dropped := dropped s; shutdown := shutdown s |}
  end.

(** Modelled from the spec: a run of the missing pipeline under a
    schedule, any interleaving of the threads' steps (§5). *)
Definition exec (max_spins : nat) (sched : list Step) (s : State) : State :=
  fold_left (fun s l => step max_spins l s) sched s.



Definition held (s : State) : list Envelope :=
  match retry s with Some (x, _) => [x] | None => [] end.

(** Modelled from the spec: the drain of the missing dispatcher's [stop()]
    (§4.2): keep dequeuing and attempting delivery until the queue is empty
    or the deadline (a number of loop iterations) has passed. *)
Fixpoint drain (max_spins deadline : nat) (s : State) : State :=
  match deadline with
  | O => s
  | S d =>
      match held s, items (queue s) with
      | [], [] => s
      | _, _ => drain max_spins d (iterate max_spins s)
      end
  end.

(** Modelled from the spec: [stop()] of the missing dispatcher (§4.2): set
    the shutdown flag, drain, then close the transports. *)
Definition stop (max_spins deadline : nat) (s : State) : State :=
  let s := {| queue := queue s; retry := retry s; transport := transport s;
              dropped := dropped s; shutdown := true |} in
  let s := drain max_spins deadline s in
  {| queue := queue s; retry := retry s;
     transport := {| conn := transit close (conn (transport s));
                     wire := wire (transport s) |};
     dropped := dropped s; shutdown := shutdown s |}.

End Pipeline.

(** ** Notions the properties are stated with *)

(** A name that is not a string, or is the empty string. *)
Definition name_malformed (v : pyval) : bool :=
  match v with PStr s => String.eqb s "" | _ => true end.

(** A logging call with a malformed argument: a bad name, a value that is
    not a number, an epoch that is missing or not a number. *)
Definition malformed (c : Call) : bool :=
  match c with
  | Call_add_param n _ => name_malformed n
  | Call_add_metric n v _ => name_malformed n || negb (is_number v)
  | Call_add_duration_at_epoch t s e =>
      name_malformed t || negb (is_number s) || is_none e || negb (is_number e)
  | _ => false
  end.


Definition falsy_or (ty : pytype) (v : pyval) : bool :=
  negb (truthy v) || isinstance v ty.

Definition numeric_metrics (m : pyval) : bool :=
  match m with
  | PDict d => forallb (fun kv => is_number (snd kv)) d
  | _ => negb (truthy m)
  end.

(** The file [add_custom_plot] exports a plot called [name] to. *)
Definition plot_file (name : pyval) : string :=
  match name with PStr nm => "./" +:+ nm +:+ ".svg" | _ => "" end.

(** An upload whose arguments pass every check, on a Tracker that is
    tracking: the payload exists and can be encoded, the plot has data and
    can be exported. *)
Definition upload_accepted (E : Collaborators) (self : Tracker) (c : Call) (w : World)
  : bool :=
  bool_decide (is_Some (rest self)) && tracking self &&
  match c with
  | Call_add_custom_object n o =>
      isinstance n T_str && bool_decide (is_Some (cloudpickle_dumps E o (-1)))
  | Call_add_image f m cfn e =>
      bool_decide (is_Some (fs w !! f)) && numeric_metrics m
      && falsy_or T_str cfn && falsy_or T_int e
      && bool_decide (is_Some (json_dumps E m))
  | Call_add_custom_plot n plt =>
      isinstance n T_str && match plt with Some p => has_data p | None => false end
      && savefig_creates E (plot_file n)
  | _ => false
  end.


(** The key under which [add_model_params] is to log the parameter [k]:
    prefixed with the model name when one is given. *)
Definition param_key (model_name : pyval) (k : string) : string :=
  match model_name with
  | PStr nm => if String.eqb nm "" then k else nm +:+ "__" +:+ k
  | _ => k
  end.

(** Logging each extracted parameter by hand. *)
Definition add_each_param (self : Tracker) (model_name : pyval)
    (params : list (string * pyval)) : M unit :=
  for_each params (fun kv => add_param self (PStr (param_key model_name (fst kv))) (snd kv)).

Definition is_end (e : Event) : bool :=
  match ev_type e with EXPERIMENT_END => true | _ => false end.

(** The [EXPERIMENT_END] events put on the queue in a history. *)
Definition end_events (h : list Effect) : list Event :=
  List.filter is_end (puts h).


(** The callbacks handed to [atexit.register] in a history. *)
Definition registrations (h : list Effect) : list nat :=
  flat_map (fun e => match e with AtexitRegister me => [me] | _ => [] end) h.

(** The effects a call of a public method can have: log records, requests
    and events other than [EXPERIMENT_END]. *)
Definition api_effect (e : Effect) : bool :=
  match e with
  | Log _ _ | Req _ => true
  | Put ev => negb (is_end ev)
  | _ => false
  end.

(** A computation that only adds such effects to the history. *)
Definition tame {A} (c : M A) : Prop :=
  forall w, exists d, hist (fst (c w)) = (hist w ++ d)%list
                      /\ forallb api_effect d = true.


(** A computation that puts nothing on the queue and issues no request. *)
Definition quiet {A} (c : M A) : Prop :=
  forall w, puts (hist (fst (c w))) = puts (hist w)
            /\ requests (hist (fst (c w))) = requests (hist w).

(** ** Notions for the single methods *)

(** The world [w] after the effects [d]. *)
Definition extend (w : World) (d : list Effect) : World :=
  {| hist := (hist w ++ d)%list; fs := fs w; ticks := ticks w |}.

(** The methods that log one value. *)
Definition is_logging_call (c : Call) : bool :=
  match c with
  | Call_add_param _ _ | Call_add_metric _ _ _
  | Call_add_duration_at_epoch _ _ _ | Call_add_dataset_id _ => true
  | _ => false
  end.

(** The event a logging call describes when its arguments are well formed:
    a name that is a non-empty string, a value that is a number where one
    is asked for, an epoch that is a number ([add_metric] also takes none),
    a dataset id that is a number or a string. *)
Definition event_of (c : Call) : option Event :=
  match c with
  | Call_add_param (PStr n) v =>
      if String.eqb n "" then None
      else Some {| ev_type := MODEL_PARAM; ev_value := PDict [(PStr n, v)];
                   ev_epoch := None |}
  | Call_add_metric (PStr n) v e =>
      if negb (String.eqb n "") && is_number v && (is_none e || is_number e)
      then Some {| ev_type := EVAL_PARAM; ev_value := PDict [(PStr n, v)];
                   ev_epoch := Some e |}
      else None
  | Call_add_duration_at_epoch (PStr n) s e =>
      if negb (String.eqb n "") && is_number s && is_number e
      then Some {| ev_type := DURATION_PARAM; ev_value := PDict [(PStr n, s)];
                   ev_epoch := Some e |}
      else None
  | Call_add_dataset_id i =>
      if isinstance_any i [T_int; T_float; T_str]
      then Some {| ev_type := DATASET_ID; ev_value := i; ev_epoch := None |}
      else None
  | _ => None
  end.

(** Each of the four methods has the same effects in every world and
    returns [None]: the event the call describes (put only when tracking)
    when its arguments are well formed, one warning when they are not. *)
Definition logging_effects (self : Tracker) (run : M pyval) (ev : option Event) : Prop :=
  exists d,
    (forall w, run w = (extend w d, Return PNone))
    /\ match ev with
       | Some ev => d = if tracking self then [Put ev] else []
       | None => exists msg, d = [Log WARNING msg]
       end.

(** The effects a method call can have, by kind: log records at [INFO] or
    [WARNING], events of the four user kinds, [get] and [post] requests. *)
Definition script_effect (e : Effect) : bool :=
  match e with
  | Log INFO _ | Log WARNING _ => true
  | Put ev =>
      match ev_type ev with
      | MODEL_PARAM | EVAL_PARAM | DURATION_PARAM | DATASET_ID => true
      | _ => false
      end
  | Req (Get _) | Req (Post _ _ _) => true
  | _ => false
  end.

(** A computation all of whose effects satisfy [P]. *)
Definition only {A} (P : Effect -> bool) (c : M A) : Prop :=
  forall w, exists d, hist (fst (c w)) = (hist w ++ d)%list
                      /\ forallb P d = true.

(** A computation that leaves an observation [f] of the world as it was. *)
Definition preserves {A B} (f : World -> B) (c : M A) : Prop :=
  forall w, f (fst (c w)) = f w.

(** An observation of the world that does not look at the history. *)
Definition ignores_history {B} (f : World -> B) : Prop :=
  forall w h, f {| hist := h; fs := fs w; ticks := ticks w |} = f w.

Definition is_plot_call (c : Call) : bool :=
  match c with Call_add_custom_plot _ _ => true | _ => false end.

(** The payloads of the [post] requests in a history, oldest first. *)
Definition uploads (h : list Effect) : list bytes :=
  flat_map (fun e => match e with Req (Post _ _ f) => [snd f] | _ => [] end) h.

(** Every callback in the [atexit] registry belongs to a Tracker of the
    process that has its dispatcher thread. *)
Definition registry_wf (p : Process) : Prop :=
  forall me, In me (atexit_registry p) ->
    exists self, objs p !! me = Some self /\ tracker_thread self = Some Dispatcher.

(** The flag [create_experiment] returns to a Tracker built in the process
    [p], and whether its construction goes all the way. *)
Definition created_in (E : Collaborators) (p : Process) (self : Tracker) : bool :=
  fst (create_experiment E (hist (world p))
         (RestConnection_new (fmt E (host self) +:+ "/") (key self) (experiment_name self))
         (experiment_id self) (caller_file E)).

(** A Tracker of the process that has its dispatcher thread, and one whose
    end time is set. *)
Definition live (p : Process) (me : nat) : Prop :=
  exists self, objs p !! me = Some self /\ tracker_thread self = Some Dispatcher.

Definition ended (p : Process) (me : nat) : Prop :=
  exists self t, objs p !! me = Some self /\ _experiment_end self = Some t.

(** What one run of the exit callback adds to the history when the clock
    reads [t]: the end event, then the dispatcher's stop. *)
Definition end_and_stop (E : Collaborators) (t : nat) : list Effect :=
  [ Put {| ev_type := EXPERIMENT_END;
           ev_value := PStr (current_string_datetime E t);
           ev_epoch := None |};
    ThreadStop Dispatcher ].


(** ** A concrete service, for examples *)

Definition gzip_magic : Byte.byte := Byte.x1f.
Definition zlib_magic : Byte.byte := Byte.x78.

Definition container_magic (wbits : Z) : Byte.byte :=
  if (25 <=? wbits) && (wbits <=? 31) then gzip_magic else zlib_magic.

(** A service that answers every request with [status], creates the
    experiment iff [created], and toy codecs: only [bytes] objects can be
    pickled (as themselves), and a compressed stream is its container's
    magic byte followed by the data. *)
Definition demo (status : Z) (created : bool) : Collaborators :=
  {| current_string_datetime := fun n => if Nat.eqb n 0 then "09:00:00" else "17:30:00";
     generate_uid := fun _ => "0b1e";
     is_uuid4_pattern := fun s => Nat.eqb (String.length s) 36;
     caller_in_module := true;
     caller_file := "train.py";
     create_experiment := fun _ c _ _ =>
       (created, {| rest_address := rest_address c; rest_key := rest_key c;
                    rest_experiment_name := rest_experiment_name c;
                    project_id := PInt 7; model_id := PInt 42 |});
     serve := fun _ _ =>
       {| status_code := status; content := [Byte.x7b; Byte.x7d]; text := "{}" |};
     str_of := fun v => match v with PInt 7 => "7" | PInt 5 => "5" | _ => "None" end;
     str_add_object := fun _ => Raise TypeError;
     savefig_creates := fun path => negb (String.prefix "./plots/" path);
     getsizeof := fun b => 33 + Z.of_nat (length b);
     sklearn_installed := true;
     json_dumps := fun _ => Some "null";
     json_loads := fun _ => Some (PDict []);
     cloudpickle_dumps := fun v _ => match v with PBytes b => Some b | _ => None end;
     pickle_loads := fun b => Some (PBytes b);
     zstream := Z * bytes;
     zlib_compressobj := fun _ _ wbits => (wbits, []);
     z_compress := fun z data => ([container_magic (fst z)], (fst z, (snd z ++ data)%list));
     z_flush := fun z => snd z;
     zlib_decompress := fun data wbits =>
       match data with
       | m :: r => if Byte.eqb m (container_magic wbits) then Some r else None
       | [] => None
       end |}.

Definition demo_uuid : string := "123e4567-e89b-42d3-a456-426614174000".

(** An upload of a two-byte object. *)
Definition refused_upload : Call :=
  Call_add_custom_object (PStr "model") (PBytes [Byte.x80; Byte.x04]).

(** The scenario of the specification: four events are enqueued, the
    channel comes up, goes down after the second send and comes back while
    the third event is held. *)
Definition reconnect_scenario : list Pipeline.Step :=
  [ Pipeline.Produce 0 (mkEvent EXPERIMENT_START (PStr "09:00:00") None);
    Pipeline.Link Pipeline.connect_success;
    Pipeline.Produce 1 (mkEvent MODEL_PARAM (PDict [(PStr "lr", PInt 1)]) None);
    Pipeline.Consume;
    Pipeline.Produce 0 (mkEvent EVAL_PARAM (PDict [(PStr "acc", PInt 9)]) (Some (PInt 1)));
    Pipeline.Consume;
    Pipeline.Link Pipeline.socket_error;
    Pipeline.Produce 2 (mkEvent EXPERIMENT_END (PStr "17:30:00") None);
    Pipeline.Consume;
    Pipeline.Consume;
    Pipeline.Link Pipeline.retry_failure;
    Pipeline.Link Pipeline.retry_success;
    Pipeline.Consume;
    Pipeline.Consume ].

(** A Tracker after a successful [__init__] against [demo]. *)
Definition demo_tracker (tracking : bool) : Tracker :=
  {| key := PStr "k"; experiment_name := PNone; host := PStr "https://mc.example";
     rest := Some {| rest_address := "https://mc.example/"; rest_key := PStr "k";
                     rest_experiment_name := PNone;
                     project_id := PInt 7; model_id := PInt 42 |};
     tracking := tracking; auto_log := false;
     _experiment_start := "09:00:00"; _experiment_end := None;
     _experiment_file := Some "train.py"; experiment_id := PStr "0b1e";
     web_socket := if tracking then Some (WebSocket "https://mc.example/ws/tracker/0b1e/")
                   else None;
     tracker_thread := if tracking then Some Dispatcher else None |}.

Definition empty_world : World := {| hist := []; fs := ∅; ticks := 0 |}.

(** A plot with data. *)
Definition demo_plot : Plot := {| has_data := true; svg := [Byte.x3c; Byte.x73] |}.

(** The same collaborators for a program whose code belongs to no module
    (run by [exec] or by [python -c]). *)
Definition outside_module (E : Collaborators) : Collaborators :=
  {| current_string_datetime := current_string_datetime E;
     generate_uid := generate_uid E;
     is_uuid4_pattern := is_uuid4_pattern E;
     caller_in_module := false;
     caller_file := caller_file E;
     create_experiment := create_experiment E;
     serve := serve E;
     str_of := str_of E;
     str_add_object := str_add_object E;
     savefig_creates := savefig_creates E;
     getsizeof := getsizeof E;
     sklearn_installed := sklearn_installed E;
     json_dumps := json_dumps E;
     json_loads := json_loads E;
     cloudpickle_dumps := cloudpickle_dumps E;
     pickle_loads := pickle_loads E;
     zstream := zstream E;
     zlib_compressobj := zlib_compressobj E;
     z_compress := z_compress E;
     z_flush := z_flush E;
     zlib_decompress := zlib_decompress E |}.



(** A service that keeps what is uploaded: it answers a [get] with the
    payload of the latest [post] (404 when there is none), with the codecs
    of [demo]. *)
Definition echo : Collaborators :=
  {| current_string_datetime := current_string_datetime (demo 201 true);
     generate_uid := generate_uid (demo 201 true);
     is_uuid4_pattern := is_uuid4_pattern (demo 201 true);
     caller_in_module := true;
     caller_file := caller_file (demo 201 true);
     create_experiment := create_experiment (demo 201 true);
     serve := fun h r =>
       match r, last (uploads h) with
       | Get _, Some payload =>
           {| status_code := 200; content := payload; text := "" |}
       | Get _, None => {| status_code := 404; content := []; text := "" |}
       | _, _ => {| status_code := 201; content := []; text := "" |}
       end;
     str_of := str_of (demo 201 true);
     str_add_object := str_add_object (demo 201 true);
     savefig_creates := savefig_creates (demo 201 true);
     getsizeof := getsizeof (demo 201 true);
     sklearn_installed := true;
     json_dumps := json_dumps (demo 201 true);
     json_loads := json_loads (demo 201 true);
     cloudpickle_dumps := cloudpickle_dumps (demo 201 true);
     pickle_loads := pickle_loads (demo 201 true);
     zstream := zstream (demo 201 true);
     zlib_compressobj := zlib_compressobj (demo 201 true);
     z_compress := z_compress (demo 201 true);
     z_flush := z_flush (demo 201 true);
     zlib_decompress := zlib_decompress (demo 201 true) |}.


(** * Properties *)

Local Open Scope list_scope.

(** ** Histories *)

Lemma puts_app h d : puts (h ++ d) = puts h ++ puts d.
Proof. unfold puts. apply flat_map_app. Qed.

Lemma requests_app h d : requests (h ++ d) = requests h ++ requests d.
Proof. unfold requests. apply flat_map_app. Qed.

Lemma starts_app h d : starts (h ++ d) = starts h ++ starts d.
Proof. unfold starts. apply flat_map_app. Qed.

Lemma stops_app h d : stops (h ++ d) = stops h ++ stops d.
Proof. unfold stops. apply flat_map_app. Qed.

(** ** Malformed arguments never reach the queue *)

Ltac run_method :=
  unfold logger_warning, logger_info, logger_debug, logger_log, event_queue_put,
    bind, emit, ret, raise; simpl.

(** C5.  A logging call with a malformed argument (a name that is not a
    string or is empty, a metric value or a number of seconds that is not a
    number, an epoch that is missing or not a number for
    [add_duration_at_epoch]) logs one warning and returns [None]: beyond
    that record the world is as it was, and nothing is put on the queue. *)
Theorem malformed_call_only_warns E self c w :
  malformed c = true ->
  exists msg,
    call E self c w
    = ({| hist := hist w ++ [Log WARNING msg]; fs := fs w; ticks := ticks w |},
       Return PNone)
    /\ puts (hist (fst (call E self c w))) = puts (hist w).
Proof.
  intros Hbad.
  assert (Hput : forall msg, puts (hist w ++ [Log WARNING msg]) = puts (hist w)).
  { intros msg. rewrite puts_app. simpl. apply app_nil_r. }
  destruct c; simpl in Hbad; try discriminate; simpl.
  - unfold add_param.
    destruct param_name; try (run_method; eexists; split; [reflexivity | apply Hput]).
    simpl in Hbad. rewrite Hbad. run_method. eexists; split; [reflexivity | apply Hput].
  - unfold add_metric.
    destruct metric_name; try (run_method; eexists; split; [reflexivity | apply Hput]).
    simpl in Hbad. destruct (String.eqb s "") eqn:Hs.
    + run_method. eexists; split; [reflexivity | apply Hput].
    + simpl in Hbad. rewrite Hbad. run_method. eexists; split; [reflexivity | apply Hput].
  - unfold add_duration_at_epoch.
    destruct tag; try (run_method; eexists; split; [reflexivity | apply Hput]).
    simpl in Hbad. destruct (String.eqb s "") eqn:Hs.
    + run_method. eexists; split; [reflexivity | apply Hput].
    + simpl in Hbad. destruct (is_number seconds_elapsed) eqn:Hn; simpl in *.
      * destruct (is_none epoch) eqn:He; simpl in *.
        -- run_method. eexists; split; [reflexivity | apply Hput].
        -- rewrite Hbad. run_method. eexists; split; [reflexivity | apply Hput].
      * run_method. eexists; split; [reflexivity | apply Hput].
Qed.

Lemma malformed_call_only_warns_witness :
  exists msg,
    call (demo 201 true) (demo_tracker true)
         (Call_add_metric (PStr "acc") (PStr "high") PNone) empty_world
    = ({| hist := hist empty_world ++ [Log WARNING msg]; fs := fs empty_world;
          ticks := ticks empty_world |}, Return PNone)
    /\ puts (hist (fst (call (demo 201 true) (demo_tracker true)
                             (Call_add_metric (PStr "acc") (PStr "high") PNone)
                             empty_world)))
       = puts (hist empty_world).
Proof.
  apply (malformed_call_only_warns (demo 201 true) (demo_tracker true)
           (Call_add_metric (PStr "acc") (PStr "high") PNone) empty_world).
  reflexivity.
Defined.

(** ** A Tracker that is not tracking *)

Lemma quiet_ret {A} (a : A) : quiet (ret a).
Proof. intros w. split; reflexivity. Qed.

Lemma quiet_raise {A} (e : exn) : quiet (@raise A e).
Proof. intros w. split; reflexivity. Qed.

Lemma quiet_log lvl msg : quiet (logger_log lvl msg).
Proof.
  intros w. unfold logger_log.
  destruct (level_no logger_level <=? level_no lvl); simpl.
  - rewrite puts_app, requests_app. simpl. rewrite !app_nil_r. split; reflexivity.
  - split; reflexivity.
Qed.

Lemma quiet_bind {A B} (c : M A) (k : A -> M B) :
  quiet c -> (forall a, quiet (k a)) -> quiet (bind c k).
Proof.
  intros Hc Hk w. unfold bind.
  destruct (Hc w) as [Hp Hr]. destruct (c w) as [w' [a | e]]; simpl in *.
  - destruct (Hk a w') as [Hp' Hr']. split; congruence.
  - split; assumption.
Qed.

Lemma quiet_fs_read path : quiet (fs_read path).
Proof. intros w. split; reflexivity. Qed.

Lemma quiet_for_each {A B} (l : list A) (body : A -> M B) :
  (forall x, quiet (body x)) -> quiet (for_each l body).
Proof.
  intros Hb. induction l as [| x l IH]; simpl.
  - apply quiet_ret.
  - apply quiet_bind; [apply Hb | intros _; apply IH].
Qed.

Lemma quiet_drop_non_numeric_metrics E d : quiet (drop_non_numeric_metrics E d).
Proof.
  induction d as [| [k v] d IH]; simpl.
  - apply quiet_ret.
  - match goal with |- quiet (if ?b then _ else _) => destruct b end; [| exact IH].
    apply quiet_bind; [apply quiet_log | intros _; apply quiet_raise].
Qed.

Create HintDb quiet.
#[local] Hint Resolve quiet_ret quiet_raise quiet_log quiet_fs_read
  quiet_drop_non_numeric_metrics : quiet.

Ltac quiet_step :=
  match goal with
  | |- quiet (bind _ _) => apply quiet_bind; [| intros ?]
  | |- quiet (logger_warning _) => apply quiet_log
  | |- quiet (logger_info _) => apply quiet_log
  | |- quiet (logger_debug _) => apply quiet_log
  | |- quiet (if ?b then _ else _) => destruct b eqn:?
  | |- quiet (match ?x with _ => _ end) => destruct x eqn:?
  | |- quiet _ => solve [auto with quiet]
  end.

(** With [tracking] off, no public method puts an event on the queue or
    issues a request, whatever its arguments. *)
Lemma call_quiet E self c : tracking self = false -> quiet (call E self c).
Proof.
  intros Hoff.
  destruct c; simpl;
    unfold add_param, add_multiple_params, add_metric, add_multiple_metrics,
      add_duration_at_epoch, add_dataset_id, add_custom_object, pull_custom_object,
      add_custom_plot, pull_params, add_image, add_model_params;
    rewrite ?Hoff; simpl; repeat quiet_step.
Qed.

Lemma run_script_quiet E self script :
  tracking self = false -> quiet (run_script E self script).
Proof.
  intros Hoff. apply quiet_for_each. intros c. apply call_quiet, Hoff.
Qed.

(** C9.  A Tracker constructed with [tracking=False]: its construction
    adds nothing to the history (the experiment is not created, no thread
    is started, nothing is registered for exit), and whatever methods the
    program then calls on it, nothing is put on the event queue and no
    request is issued. *)
Theorem untracked_tracker_is_inert E key host experiment_name auto_log existing_exp_id p :
  let r := Tracker_init E key host experiment_name false auto_log existing_exp_id p in
  hist (world (snd r)) = hist (world p)
  /\ atexit_registry (snd r) = atexit_registry p
  /\ exists self,
       objs (snd r) !! fst r = Some self
       /\ tracking self = false
       /\ forall script w,
            puts (hist (fst (run_script E self script w))) = puts (hist w)
            /\ requests (hist (fst (run_script E self script w))) = requests (hist w).
Proof.
  unfold Tracker_init, lift, now, _initialize_with, store. simpl.
  destruct (decide (length (objs p) < length (objs p))%nat) as [Hlt | _]; [lia |].
  simpl. split; [reflexivity |]. split; [reflexivity |].
  eexists. split; [apply list_lookup_middle; reflexivity |].
  split; [reflexivity |].
  intros script w. apply run_script_quiet. reflexivity.
Qed.

(** ** Exceptions that escape into the instrumented program *)

(** C2.  [pull_params] with an experiment id that is not a string raises
    [TypeError] into the caller: the url is built by string concatenation
    before the type of the argument is checked, so the warning of the check
    is never reached.  The world is left as it was. *)
Theorem pull_params_non_string_raises E self z w :
  pull_params E self (PInt z) w = (w, Raise TypeError).
Proof. reflexivity. Qed.

(** [add_image] with a metric that is not a number logs its warning and
    then raises [RuntimeError]: the metric is deleted from the dict while
    the dict is being iterated. *)
Lemma add_image_non_numeric_metric_raises E self filepath image k v cfn epoch w :
  fs w !! filepath = Some image ->
  is_number v = false ->
  add_image E self filepath (PDict [(k, v)]) cfn epoch w
  = ({| hist := hist w ++ [Log WARNING ("Metric - " +:+ fmt E k +:+ " is not a number")];
        fs := fs w; ticks := ticks w |}, Raise RuntimeError).
Proof.
  intros Hf Hv. unfold add_image, fs_read, bind. rewrite Hf. simpl.
  unfold is_number in Hv. apply orb_false_elim in Hv as [Hi Hfl].
  unfold bind. simpl.
  replace (match v with PBool _ | PInt _ => true | _ => false end) with false
    by (destruct v; simpl in *; congruence).
  replace (match v with PFloat _ => true | _ => false end) with false
    by (destruct v; simpl in *; congruence).
  reflexivity.
Qed.

(** [add_custom_object] with an object that cannot be pickled raises. *)
Lemma add_custom_object_unpicklable_raises E self c nm obj w :
  rest self = Some c -> tracking self = true ->
  cloudpickle_dumps E obj (-1) = None ->
  add_custom_object E self (PStr nm) obj w = (w, Raise PicklingError).
Proof.
  intros Hr Ht Hd. unfold add_custom_object, get_compressed_picke, bind.
  rewrite Hr, Ht, Hd. reflexivity.
Qed.

(** ** Pull-back when the service refuses *)

(** [pull_params] returns [None] on a 400 and on a 403. *)
Lemma pull_params_refused E self c eid w :
  rest self = Some c -> tracking self = true ->
  let resp := serve E (hist w) (Get ("api/experiment-pull-param/?experiment-id=" +:+ eid)) in
  status_code resp = 400 \/ status_code resp = 403 ->
  snd (pull_params E self (PStr eid) w) = Return PNone.
Proof.
  intros Hr Ht resp Hst. unfold pull_params, rest_get, rest_call, bind.
  rewrite Hr, Ht. simpl. fold resp.
  destruct Hst as [-> | ->]; reflexivity.
Qed.

(** C3.  [pull_custom_object], when the service answers 400 or 403, does
    not return [None]: it goes on to decode the body of the refusal, so its
    outcome is whatever [zlib.decompress] and [pickle.loads] make of that
    body, an exception when the body is not a compressed pickle. *)
Theorem pull_custom_object_decodes_refusal E self c sid w :
  rest self = Some c -> tracking self = true -> is_uuid4_pattern E sid = true ->
  let url := "api/experiment-custom-object/retrieve/" +:+ fmt E (project_id c)
               +:+ "/?custom-object-id=" +:+ sid in
  let resp :=
    serve E (hist w ++ [Log INFO ("Downloading custom object with the id: " +:+ sid)])
          (Get url) in
  status_code resp = 400 \/ status_code resp = 403 ->
  snd (pull_custom_object E self (PStr sid) w)
  = snd (decode_custom_object E (content resp) w).
Proof.
  intros Hr Ht Hu url resp Hst.
  unfold pull_custom_object, rest_get, rest_call. rewrite Hr, Ht, Hu. simpl.
  run_method. fold url. fold resp.
  unfold decode_custom_object.
  destruct Hst as [-> | ->]; simpl;
    destruct (zlib_decompress E (content resp) 31) as [pickled |]; simpl;
    try reflexivity;
    destruct (pickle_loads E pickled); reflexivity.
Qed.

Lemma pull_custom_object_decodes_refusal_witness :
  snd (pull_custom_object (demo 400 true) (demo_tracker true) (PStr demo_uuid) empty_world)
  = Raise ZlibError.
Proof.
  rewrite (pull_custom_object_decodes_refusal (demo 400 true) (demo_tracker true)
             {| rest_address := "https://mc.example/"; rest_key := PStr "k";
                rest_experiment_name := PNone;
                project_id := PInt 7; model_id := PInt 42 |}
             demo_uuid empty_world);
    [reflexivity | reflexivity | reflexivity | reflexivity | left; reflexivity].
Defined.

(** ** Bulk uploads *)






Lemma list_ascii_of_string_app a b :
  list_ascii_of_string (a +:+ b) = list_ascii_of_string a ++ list_ascii_of_string b.
Proof. induction a as [| c a IH]; simpl; [reflexivity | rewrite IH; reflexivity]. Qed.

Lemma string_rev_involutive s : string_rev (string_rev s) = s.
Proof.
  unfold string_rev.
  rewrite list_ascii_of_string_of_list_ascii, rev_involutive.
  apply string_of_list_ascii_of_string.
Qed.

(** [strip()] leaves the path alone, whatever white space the name has. *)
Lemma strip_plot_path nm : strip ("./" +:+ nm +:+ ".svg") = "./" +:+ nm +:+ ".svg".
Proof.
  unfold strip.
  assert (Hl : lstrip ("./" +:+ nm +:+ ".svg") = "./" +:+ nm +:+ ".svg") by reflexivity.
  rewrite Hl.
  assert (Hr : exists rest, string_rev ("./" +:+ nm +:+ ".svg") = String "g" rest).
  { unfold string_rev. rewrite !list_ascii_of_string_app. simpl list_ascii_of_string at 3.
    rewrite !rev_app_distr. simpl. eexists. reflexivity. }
  destruct Hr as [rest Hr].
  assert (Hk : lstrip (string_rev ("./" +:+ nm +:+ ".svg"))
               = string_rev ("./" +:+ nm +:+ ".svg")).
  { rewrite Hr. reflexivity. }
  rewrite Hk. apply string_rev_involutive.
Qed.








Example refused_upload_history :
  upload_accepted (demo 500 true) (demo_tracker true) refused_upload empty_world = true
  /\ call (demo 500 true) (demo_tracker true) refused_upload empty_world
     = ({| hist := [Log INFO "Uploading custom object: model";
                    Req (Post "api/experiment-custom-object/create/7/"
                              [("name", PStr "model"); ("filesize", PInt 35);
                               ("project", PInt 7); ("ml_model", PInt 42)]
                              ("custom_object_file",
                               [Byte.x1f; Byte.x80; Byte.x04]));
                    Log INFO "Custom object could not be saved."];
           fs := ∅; ticks := 0 |}, Return PNone).
Proof. split; reflexivity. Qed.


(** A plot whose file cannot be created is not uploaded: [savefig] raises
    and no request is issued. *)
Example unwritable_plot_raises :
  upload_accepted (demo 201 true) (demo_tracker true)
    (Call_add_custom_plot (PStr "plots/loss") (Some demo_plot)) empty_world = false
  /\ add_custom_plot (demo 201 true) (demo_tracker true) (PStr "plots/loss")
       (Some demo_plot) empty_world
     = (empty_world, Raise OSError).
Proof. split; reflexivity. Qed.

(** ** Parameters extracted from a model *)

Lemma append_inj_r (p a b : string) : p +:+ a = p +:+ b -> a = b.
Proof.
  induction p as [| c p IH]; simpl; intros H.
  - exact H.
  - injection H as H. apply IH, H.
Qed.

Lemma dict_set_fresh d k v :
  ~ In k (map fst d) -> dict_set d k v = d ++ [(k, v)].
Proof.
  induction d as [| [k' v'] d IH]; simpl; intros Hk.
  - reflexivity.
  - destruct (String.eqb k' k) eqn:Heq.
    + apply String.eqb_eq in Heq. tauto.
    + rewrite IH by tauto. reflexivity.
Qed.

Lemma prefix_params_fold E nm ps acc :
  List.NoDup (map fst ps) ->
  (forall k, In k (map fst ps) -> ~ In (nm +:+ "__" +:+ k) (map fst acc)) ->
  fold_left (fun result kv => dict_set result (prefixed E nm (fst kv)) (snd kv))
            (str_keys ps) acc
  = acc ++ map (fun kv => (nm +:+ "__" +:+ fst kv, snd kv)) ps.
Proof.
  revert acc. induction ps as [| [k v] ps IH]; simpl; intros acc Hnd Hfresh.
  - symmetry. apply app_nil_r.
  - inversion Hnd as [| ? ? Hk Hnd']; subst.
    unfold prefixed at 2. simpl fmt.
    rewrite dict_set_fresh by (apply Hfresh; left; reflexivity).
    rewrite IH.
    + rewrite <- app_assoc. reflexivity.
    + exact Hnd'.
    + intros k' Hk'. rewrite map_app, in_app_iff. simpl.
      intros [Hin | [Heq | []]].
      * apply (Hfresh k'); [right; exact Hk' | exact Hin].
      * apply append_inj_r in Heq. apply append_inj_r in Heq. subst k'.
        apply Hk, Hk'.
Qed.

Lemma prefix_params_spec E nm ps :
  List.NoDup (map fst ps) ->
  prefix_params E nm (str_keys ps)
  = map (fun kv => (nm +:+ "__" +:+ fst kv, snd kv)) ps.
Proof.
  intros Hnd. unfold prefix_params.
  rewrite prefix_params_fold; [reflexivity | exact Hnd | intros ? ? []].
Qed.

Lemma for_each_ext {A B} (l : list A) (f g : A -> M B) w :
  (forall x w, f x w = g x w) -> for_each l f w = for_each l g w.
Proof.
  intros Hfg. revert w. induction l as [| x l IH]; simpl; intros w.
  - reflexivity.
  - unfold bind. rewrite Hfg. destruct (g x w) as [w' [b | e]]; [apply IH | reflexivity].
Qed.

Lemma for_each_map {A B C} (h : A -> B) (l : list A) (f : B -> M C) w :
  for_each (map h l) f w = for_each l (fun x => f (h x)) w.
Proof.
  revert w. induction l as [| x l IH]; simpl; intros w.
  - reflexivity.
  - unfold bind. destruct (f (h x) w) as [w' [b | e]]; [apply IH | reflexivity].
Qed.

(** Every event [add_param] puts on the queue is a [MODEL_PARAM]. *)
Lemma add_param_puts self n v w :
  exists d, hist (fst (add_param self n v w)) = hist w ++ d
            /\ Forall (fun e => ev_type e = MODEL_PARAM) (puts d)
            /\ exists r, snd (add_param self n v w) = Return r.
Proof.
  unfold add_param.
  destruct n; try (run_method; eexists; split; [reflexivity |]; split;
                   [constructor | eexists; reflexivity]).
  destruct (String.eqb s ""); [run_method; eexists; split; [reflexivity |]; split;
                                [constructor | eexists; reflexivity] |].
  destruct (tracking self); run_method.
  - eexists; split; [reflexivity |]. split; [| eexists; reflexivity].
    simpl. constructor; [reflexivity | constructor].
  - exists []. split; [symmetry; apply app_nil_r |]. split; [constructor | eexists; reflexivity].
Qed.

Lemma for_each_add_param_puts {A} self (l : list A) (kf : A -> pyval) (vf : A -> pyval) w :
  exists d, hist (fst (for_each l (fun x => add_param self (kf x) (vf x)) w)) = hist w ++ d
            /\ Forall (fun e => ev_type e = MODEL_PARAM) (puts d).
Proof.
  revert w. induction l as [| x l IH]; simpl; intros w.
  - exists []. split; [symmetry; apply app_nil_r | constructor].
  - destruct (add_param_puts self (kf x) (vf x) w) as (d1 & Hd1 & Hf1 & r & Hr).
    unfold bind. destruct (add_param self (kf x) (vf x) w) as [w1 o]. simpl in *.
    subst o. destruct (IH w1) as (d2 & Hd2 & Hf2).
    exists (d1 ++ d2). rewrite Hd2, Hd1, app_assoc. split; [reflexivity |].
    rewrite puts_app. apply Forall_app. split; assumption.
Qed.

(** C8.  For a supported model (an estimator, whose parameters have
    distinct string names) and a model name that is absent or a string,
    [add_model_params] puts on the queue exactly the events that
    [add_param(k', v)] puts for each extracted parameter [(k, v)] in turn,
    where [k'] is [model_name__k] when a model name is given and [k]
    otherwise; when the Tracker is tracking the two leave the same world.
    All of these events are [MODEL_PARAM] events. *)
Theorem add_model_params_logs_each_param E self ps model_name w :
  sklearn_installed E = true ->
  List.NoDup (map fst ps) ->
  (model_name = PNone \/ exists nm, model_name = PStr nm) ->
  let auto := add_model_params E self (PEstimator (str_keys ps)) model_name w in
  let manual := add_each_param self model_name ps w in
  puts (hist (fst auto)) = puts (hist (fst manual))
  /\ (tracking self = true -> fst auto = fst manual)
  /\ exists d, hist (fst auto) = hist w ++ d
               /\ Forall (fun e => ev_type e = MODEL_PARAM) (puts d).
Proof.
  intros Hsk Hnd Hname auto manual.
  assert (Hauto : tracking self = true ->
                  auto = bind (add_each_param self model_name ps)
                              (fun _ => ret PNone) w).
  { intros Ht. subst auto. unfold add_model_params, add_multiple_params, add_each_param.
    rewrite Hsk, Ht. destruct Hname as [-> | [nm ->]]; simpl.
    - unfold bind. unfold str_keys. rewrite for_each_map. reflexivity.
    - unfold param_key. destruct (String.eqb nm "") eqn:Hnm; simpl.
      + unfold bind. unfold str_keys. rewrite for_each_map. reflexivity.
      + rewrite prefix_params_spec by exact Hnd.
        unfold bind. unfold str_keys. rewrite !for_each_map. reflexivity. }
  destruct (tracking self) eqn:Ht.
  - specialize (Hauto eq_refl).
    assert (Hw : fst auto = fst manual).
    { rewrite Hauto. unfold bind. subst manual.
      destruct (add_each_param self model_name ps w) as [w' [[] | e]]; reflexivity. }
    split; [rewrite Hw; reflexivity |]. split; [intros _; exact Hw |].
    rewrite Hw. subst manual. unfold add_each_param.
    apply (for_each_add_param_puts self ps
             (fun kv => PStr (param_key model_name (fst kv))) snd).
  - assert (Hw : fst auto = w).
    { subst auto. unfold add_model_params. rewrite Hsk, Ht.
      destruct Hname as [-> | [nm ->]]; simpl; rewrite ?andb_false_r; reflexivity. }
    rewrite Hw. split; [| split; [discriminate |]].
    + symmetry. subst manual. unfold add_each_param.
      refine (proj1 (quiet_for_each ps _ _ w)). intros kv.
      exact (call_quiet E self (Call_add_param _ _) Ht).
    + exists []. split; [symmetry; apply app_nil_r | constructor].
Qed.

Lemma add_model_params_logs_each_param_witness :
  puts (hist (fst (add_model_params (demo 201 true) (demo_tracker true)
                     (PEstimator (str_keys [("C", PInt 1); ("kernel", PStr "rbf")]))
                     (PStr "svc") empty_world)))
  = [ {| ev_type := MODEL_PARAM; ev_value := PDict [(PStr "svc__C", PInt 1)];
         ev_epoch := None |};
      {| ev_type := MODEL_PARAM; ev_value := PDict [(PStr "svc__kernel", PStr "rbf")];
         ev_epoch := None |} ].
Proof.
  destruct (add_model_params_logs_each_param (demo 201 true) (demo_tracker true)
              [("C", PInt 1); ("kernel", PStr "rbf")] (PStr "svc") empty_world)
    as [Hputs _].
  - reflexivity.
  - repeat constructor; simpl; intuition discriminate.
  - right. eexists. reflexivity.
  - rewrite Hputs. reflexivity.
Defined.

(** ** What a method call can add to the history *)

Lemma tame_ret {A} (a : A) : tame (ret a).
Proof. intros w. exists []. split; [symmetry; apply app_nil_r | reflexivity]. Qed.

Lemma tame_raise {A} (e : exn) : tame (@raise A e).
Proof. intros w. exists []. split; [symmetry; apply app_nil_r | reflexivity]. Qed.

Lemma tame_emit e : api_effect e = true -> tame (emit e).
Proof. intros He w. exists [e]. split; [reflexivity | simpl; rewrite He; reflexivity]. Qed.

Lemma tame_log lvl msg : tame (logger_log lvl msg).
Proof.
  unfold logger_log. destruct (level_no logger_level <=? level_no lvl).
  - apply tame_emit. reflexivity.
  - apply tame_ret.
Qed.

Lemma tame_bind {A B} (c : M A) (k : A -> M B) :
  tame c -> (forall a, tame (k a)) -> tame (bind c k).
Proof.
  intros Hc Hk w. unfold bind.
  destruct (Hc w) as (d1 & Hd1 & Ha1). destruct (c w) as [w' [a | e]]; simpl in *.
  - destruct (Hk a w') as (d2 & Hd2 & Ha2). exists (d1 ++ d2).
    rewrite Hd2, Hd1, app_assoc, forallb_app, Ha1, Ha2. split; reflexivity.
  - exists d1. split; assumption.
Qed.

Lemma tame_rest_call E r : tame (rest_call E r).
Proof. intros w. exists [Req r]. split; reflexivity. Qed.

Lemma tame_fs_read path : tame (fs_read path).
Proof. intros w. exists []. split; [symmetry; apply app_nil_r | reflexivity]. Qed.

Lemma tame_fs_write path data : tame (fs_write path data).
Proof. intros w. exists []. split; [symmetry; apply app_nil_r | reflexivity]. Qed.

Lemma tame_fs_remove path : tame (fs_remove path).
Proof. intros w. exists []. split; [symmetry; apply app_nil_r | reflexivity]. Qed.

Lemma tame_for_each {A B} (l : list A) (body : A -> M B) :
  (forall x, tame (body x)) -> tame (for_each l body).
Proof.
  intros Hb. induction l as [| x l IH]; simpl.
  - apply tame_ret.
  - apply tame_bind; [apply Hb | intros _; apply IH].
Qed.

Lemma tame_drop_non_numeric_metrics E d : tame (drop_non_numeric_metrics E d).
Proof.
  induction d as [| [k v] d IH]; simpl.
  - apply tame_ret.
  - match goal with |- tame (if ?b then _ else _) => destruct b end; [| exact IH].
    apply tame_bind; [apply tame_log | intros _; apply tame_raise].
Qed.

Lemma tame_get_compressed_picke E obj : tame (get_compressed_picke E obj).
Proof.
  unfold get_compressed_picke. destruct (cloudpickle_dumps E obj (-1)).
  - destruct (z_compress E _ _). apply tame_ret.
  - apply tame_raise.
Qed.

Create HintDb tame.
#[local] Hint Resolve tame_ret tame_raise tame_log tame_fs_read tame_fs_write
  tame_fs_remove tame_rest_call tame_drop_non_numeric_metrics
  tame_get_compressed_picke : tame.

Ltac tame_step :=
  match goal with
  | |- tame (bind _ _) => apply tame_bind; [| intros ?]
  | |- tame (logger_warning _) => apply tame_log
  | |- tame (logger_info _) => apply tame_log
  | |- tame (logger_debug _) => apply tame_log
  | |- tame (event_queue_put _) => apply tame_emit; reflexivity
  | |- tame (rest_post _ _ _ _ _) => apply tame_rest_call
  | |- tame (rest_get _ _ _) => apply tame_rest_call
  | |- tame (decode_custom_object _ _) => unfold decode_custom_object
  | |- tame (savefig _ _ _) => unfold savefig
  | |- tame (open_rb _) => unfold open_rb
  | |- tame (for_each _ _) => apply tame_for_each; intros ?
  | |- tame (add_multiple_params _ _) => unfold add_multiple_params
  | |- tame (add_param _ _ _) => unfold add_param
  | |- tame (add_metric _ _ _ _) => unfold add_metric
  | |- tame (if ?b then _ else _) => destruct b eqn:?
  | |- tame (match ?x with _ => _ end) => destruct x eqn:?
  | |- tame (let _ := _ in _) => cbv zeta
  | |- tame _ => solve [auto with tame]
  end.

Lemma call_tame E self c : tame (call E self c).
Proof.
  destruct c; simpl;
    unfold add_param, add_multiple_params, add_metric, add_multiple_metrics,
      add_duration_at_epoch, add_dataset_id, add_custom_object, pull_custom_object,
      add_custom_plot, pull_params, add_image, add_model_params;
    repeat tame_step.
Qed.

Lemma run_script_tame E self script : tame (run_script E self script).
Proof. apply tame_for_each. intros c. apply call_tame. Qed.

Lemma api_effects_projections d :
  forallb api_effect d = true ->
  starts d = [] /\ stops d = [] /\ end_events d = [] /\ registrations d = [].
Proof.
  induction d as [| e d IH]; simpl; intros Hd; [repeat split; reflexivity |].
  apply andb_prop in Hd as [He Hd]. destruct (IH Hd) as (Hs & Ht & Hn & Hr).
  unfold end_events in *.
  destruct e; simpl in *; try discriminate; repeat split; try assumption.
  destruct (is_end e); [discriminate | assumption].
Qed.

(** ** The life of a process *)

(** What [__init__] does in a process that has just started. *)
Lemma Tracker_init_boot E files k h n trk al ex :
  let self0 := Tracker_attrs E k h n trk al ex (world (boot files)) in
  let ok := trk && bootstrap_flag E self0 in
  exists self1 h1,
    Tracker_init E k h n trk al ex (boot files)
    = (0%nat, {| world := {| hist := h1; fs := files; ticks := 1 |};
                 objs := [self1];
                 atexit_registry := if ok then [0%nat] else [];
                 current_tracker := if ok then Some 0%nat else None |})
    /\ _experiment_end self1 = None
    /\ (ok = true -> tracker_thread self1 = Some Dispatcher)
    /\ starts h1 = (if ok then [WebSocket (ws_address E self0); Dispatcher] else [])
    /\ puts h1
       = (if ok
          then [ {| ev_type := EXPERIMENT_START;
                    ev_value := PStr (_experiment_start self0); ev_epoch := None |};
                 {| ev_type := CODE_FILE;
                    ev_value := PDict [(PStr "filename", PStr (caller_file E));
                                       (PStr "experiment_id", experiment_id self0)];
                    ev_epoch := None |} ]
          else [])
    /\ requests h1
       = (if trk then [CreateExperiment (experiment_id self0) (caller_file E)] else [])
    /\ stops h1 = [] /\ end_events h1 = []
    /\ registrations h1 = (if ok then [0%nat] else []).
Proof.
  intros self0 ok. subst ok. unfold bootstrap_flag.
  unfold Tracker_init, lift, now, boot.
  cbn [world objs length hist fs ticks atexit_registry current_tracker].
  unfold _initialize_with. subst self0. cbn [tracking Tracker_attrs world boot].
  destruct trk; cbn [negb andb].
  - unfold lift, rest_create_experiment.
    cbn [world objs length hist fs ticks atexit_registry current_tracker
         host key experiment_name experiment_id].
    destruct (create_experiment E [] _ _ _) as [flag c] eqn:Hc.
    cbn [fst]. destruct flag; cbn [negb].
    + destruct al;
        cbv [in_world lift emit event_queue_put store set_current_tracker
             atexit_register world objs atexit_registry current_tracker
             hist fs ticks fst snd length auto_log];
        (destruct (decide (0 < 0)%nat) as [Hlt | _]; [lia |]);
        do 2 eexists; (split; [reflexivity |]);
        repeat split; reflexivity.
    + unfold store. simpl. do 2 eexists. split; [reflexivity |].
      repeat split; try reflexivity. discriminate.
  - unfold store. simpl. do 2 eexists. split; [reflexivity |].
    repeat split; try reflexivity. discriminate.
Qed.

Lemma lift_world {A} (c : M A) p :
  fst (lift c p)
  = {| world := fst (c (world p)); objs := objs p;
       atexit_registry := atexit_registry p; current_tracker := current_tracker p |}.
Proof. unfold lift. destruct (c (world p)). reflexivity. Qed.

(** The shape of every run: what [__init__] did, then what the calls of
    the program added, then what the exit callback added if it was
    registered. *)
Lemma run_process_shape E files k h n trk al ex script :
  let self0 := Tracker_attrs E k h n trk al ex (world (boot files)) in
  let ok := trk && bootstrap_flag E self0 in
  let init := snd (Tracker_init E k h n trk al ex (boot files)) in
  let final := run_process E files k h n trk al ex script in
  exists d t self,
    forallb api_effect d = true
    /\ hist (world final)
       = hist (world init) ++ d
         ++ (if ok
             then [Put {| ev_type := EXPERIMENT_END; ev_value := PStr t;
                          ev_epoch := None |};
                   ThreadStop Dispatcher]
             else [])
    /\ atexit_registry final = (if ok then [0%nat] else [])
    /\ objs final = [self]
    /\ _experiment_end self = (if ok then Some t else None).
Proof.
  intros self0 ok init final. subst init final. unfold run_process.
  destruct (Tracker_init_boot E files k h n trk al ex)
    as (self1 & h1 & Hinit & Hend & Hthread & _).
  fold self0 in Hinit, Hthread. fold ok in Hinit, Hthread.
  rewrite Hinit. cbn [snd objs lookup list_lookup].
  rewrite lift_world. cbn [world objs atexit_registry current_tracker hist].
  destruct (run_script_tame E self1 script {| hist := h1; fs := files; ticks := 1 |})
    as (d & Hd & Hapi).
  destruct (run_script E self1 script {| hist := h1; fs := files; ticks := 1 |})
    as [w2 o2]. cbn [fst hist] in *.
  unfold run_atexit. cbn [atexit_registry].
  exists d, (current_string_datetime E (ticks w2)).
  destruct ok.
  - cbn [rev app fold_left]. unfold _on_end.
    cbn [objs lookup list_lookup]. unfold lift, now.
    cbn [world objs atexit_registry current_tracker].
    unfold store. cbn [objs length world atexit_registry current_tracker].
    destruct (decide (0 < 1)%nat) as [_ | Hn]; [| lia].
    rewrite (Hthread eq_refl).
    unfold in_world, lift, event_queue_put, thread_stop, emit. simpl.
    rewrite Hd. eexists. split; [exact Hapi |].
    split; [rewrite <- !app_assoc; reflexivity |].
    repeat split; reflexivity.
  - cbn [rev fold_left world hist objs atexit_registry]. rewrite Hd.
    exists self1. split; [exact Hapi |].
    split; [rewrite app_nil_r; reflexivity |].
    repeat split; try reflexivity. exact Hend.
Qed.

Lemma end_events_app h d : end_events (h ++ d) = end_events h ++ end_events d.
Proof. unfold end_events. rewrite puts_app. apply List.filter_app. Qed.

Lemma registrations_app h d : registrations (h ++ d) = registrations h ++ registrations d.
Proof. unfold registrations. apply flat_map_app. Qed.

(** C4.  In every run of an instrumented program (whatever methods it
    calls, and whether it ends normally or by an exception that a call
    raises), the exit callback is registered at most once, exactly when
    tracking is on and the experiment was created; it then runs once at
    interpreter termination: the history ends with the [EXPERIMENT_END]
    event, carrying the end time, followed by the dispatcher's [stop()],
    there is no other [EXPERIMENT_END] event and no other stop, and the
    end time of the Tracker goes from unset to that time.  When nothing
    was registered, no [EXPERIMENT_END] is enqueued, nothing is stopped
    and the end time stays unset. *)
Theorem exit_hook_runs_once E files k h n trk al ex script :
  let self0 := Tracker_attrs E k h n trk al ex (world (boot files)) in
  let ok := trk && bootstrap_flag E self0 in
  let final := run_process E files k h n trk al ex script in
  let hi := hist (world final) in
  registrations hi = atexit_registry final
  /\ atexit_registry final = (if ok then [0%nat] else [])
  /\ if ok
     then exists pre t,
         hi = pre ++ [Put {| ev_type := EXPERIMENT_END; ev_value := PStr t;
                             ev_epoch := None |};
                      ThreadStop Dispatcher]
         /\ end_events pre = [] /\ stops pre = []
         /\ exists self, objs final = [self] /\ _experiment_end self = Some t
     else end_events hi = [] /\ stops hi = []
          /\ exists self, objs final = [self] /\ _experiment_end self = None.
Proof.
  intros self0 ok final hi. subst hi final.
  destruct (run_process_shape E files k h n trk al ex script)
    as (d & t & self & Hapi & Hhist & Hreg & Hobjs & Hend).
  destruct (Tracker_init_boot E files k h n trk al ex)
    as (self1 & h1 & Hinit & _ & _ & _ & _ & _ & Hstops & Hends & Hregs).
  rewrite Hinit in Hhist. cbn [snd world hist] in Hhist.
  fold self0 in Hhist, Hreg, Hend, Hregs. fold ok in Hhist, Hreg, Hend, Hregs.
  destruct (api_effects_projections d Hapi) as (_ & Hdt & Hde & Hdr).
  rewrite Hhist, Hreg. rewrite !registrations_app, Hregs, Hdr.
  destruct ok.
  - split; [reflexivity |]. split; [reflexivity |].
    exists (h1 ++ d), t. split; [rewrite <- app_assoc; reflexivity |].
    rewrite end_events_app, stops_app, Hends, Hde, Hstops, Hdt.
    repeat split. exists self. split; assumption.
  - split; [reflexivity |]. split; [reflexivity |].
    rewrite !end_events_app, !stops_app, Hends, Hde, Hstops, Hdt.
    repeat split. exists self. split; assumption.
Qed.


(** [__init__] goes through exactly when the code that calls the
    constructor belongs to a module. *)
Lemma Tracker_new_in_module E k h n trk al ex p :
  caller_in_module E = true ->
  Tracker_new E k h n trk al ex p
  = (snd (Tracker_init E k h n trk al ex p),
     Return (fst (Tracker_init E k h n trk al ex p))).
Proof.
  intros Hm. unfold Tracker_new, Tracker_init, _initialize, caller_lookup.
  rewrite Hm. destruct (lift (now E) p) as [p' o]. reflexivity.
Qed.

Lemma Tracker_new_no_module E k h n trk al ex p :
  caller_in_module E = false ->
  Tracker_new E k h n trk al ex p = (fst (lift (now E) p), Raise AttributeError).
Proof.
  intros Hm. unfold Tracker_new, _initialize, caller_lookup.
  rewrite Hm. destruct (lift (now E) p) as [p' o]. reflexivity.
Qed.





(** A program run by [python -c] gets no Tracker: the constructor raises
    before it reaches the service. *)
Example Tracker_new_outside_module :
  Tracker_new (outside_module (demo 201 true)) (PStr "k") (PStr "https://mc.example")
              PNone true false PNone (boot ∅)
  = ({| world := {| hist := []; fs := ∅; ticks := 1 |};
        objs := []; atexit_registry := []; current_tracker := None |},
     Raise AttributeError).
Proof. reflexivity. Qed.

(** A run against the demo service: a program that logs one parameter and
    then calls [pull_params] with a number, which raises. *)
Example demo_run_history :
  hist (world (run_process (demo 201 true) ∅ (PStr "k") (PStr "https://mc.example")
                 PNone true false PNone
                 [Call_add_param (PStr "lr") (PInt 1); Call_pull_params (PInt 5);
                  Call_add_param (PStr "never") PNone]))
  = [ Req (CreateExperiment (PStr "0b1e") "train.py");
      ThreadStart (WebSocket "https://mc.example/ws/tracker/0b1e/");
      ThreadStart Dispatcher;
      Put {| ev_type := EXPERIMENT_START; ev_value := PStr "09:00:00"; ev_epoch := None |};
      Put {| ev_type := CODE_FILE;
             ev_value := PDict [(PStr "filename", PStr "train.py");
                                (PStr "experiment_id", PStr "0b1e")];
             ev_epoch := None |};
      AtexitRegister 0;
      Put {| ev_type := MODEL_PARAM; ev_value := PDict [(PStr "lr", PInt 1)];
             ev_epoch := None |};
      Put {| ev_type := EXPERIMENT_END; ev_value := PStr "17:30:00"; ev_epoch := None |};
      ThreadStop Dispatcher ].
Proof. reflexivity. Qed.

(** ** Custom objects: encoding and decoding *)

(** C10.  Given the contracts of the libraries (a stream written by a
    [compressobj] with a gzip container, [wbits] from 25 to 31, is read
    back by [zlib.decompress] with the same [wbits]; [pickle.loads] inverts
    [cloudpickle.dumps]), for every object that can be pickled the payload
    built by [__get_compressed_picke] is decoded by the last steps of
    [pull_custom_object] ([pickle.loads(zlib.decompress(c, 31))]) to the
    object itself.  Neither step touches the world. *)
Theorem custom_object_round_trip E obj w w' :
  (forall level wbits data chunk z',
      25 <= wbits <= 31 ->
      z_compress E (zlib_compressobj E level zlib_DEFLATED wbits) data = (chunk, z') ->
      zlib_decompress E (chunk ++ z_flush E z') wbits = Some data) ->
  (forall o protocol pickled,
      cloudpickle_dumps E o protocol = Some pickled ->
      pickle_loads E pickled = Some o) ->
  is_Some (cloudpickle_dumps E obj (-1)) ->
  exists c filesize,
    get_compressed_picke E obj w = (w, Return (c, filesize))
    /\ decode_custom_object E c w' = (w', Return obj).
Proof.
  intros Hzlib Hpickle [pickled Hdumps].
  unfold get_compressed_picke. rewrite Hdumps.
  destruct (z_compress E (zlib_compressobj E (-1) zlib_DEFLATED 31) pickled)
    as [chunk z'] eqn:Hz.
  exists (chunk ++ z_flush E z'), (getsizeof E pickled).
  split; [reflexivity |].
  unfold decode_custom_object.
  rewrite (Hzlib (-1) 31 pickled chunk z') by (lia || exact Hz).
  rewrite (Hpickle obj (-1) pickled Hdumps). reflexivity.
Qed.

Lemma custom_object_round_trip_witness :
  exists c filesize,
    get_compressed_picke (demo 201 true) (PBytes [Byte.x80; Byte.x04]) empty_world
    = (empty_world, Return (c, filesize))
    /\ decode_custom_object (demo 201 true) c empty_world
       = (empty_world, Return (PBytes [Byte.x80; Byte.x04])).
Proof.
  apply (custom_object_round_trip (demo 201 true)).
  - intros level wbits data chunk z' Hw Hz. simpl in *.
    injection Hz as <- <-. simpl.
    rewrite Byte.byte_dec_lb by reflexivity. reflexivity.
  - intros o protocol pickled Hd. simpl in *.
    destruct o; try discriminate. injection Hd as ->. reflexivity.
  - eexists. reflexivity.
Defined.

(** * Further properties of the Tracker *)

(** ** The methods that log one value *)

Lemma extend_nil w : extend w [] = w.
Proof. destruct w. unfold extend. simpl. rewrite app_nil_r. reflexivity. Qed.

Lemma extend_extend w d1 d2 : extend (extend w d1) d2 = extend w (d1 ++ d2).
Proof. unfold extend. simpl. rewrite app_assoc. reflexivity. Qed.

Ltac logged_one :=
  eexists; split;
  [ intros w; run_method; reflexivity | eexists; reflexivity ].

Ltac put_or_skip self :=
  destruct (tracking self); simpl;
  [ eexists; split; [intros w; run_method; reflexivity | reflexivity]
  | exists []; split; [intros w; rewrite extend_nil; run_method; reflexivity
                      | reflexivity] ].

Lemma add_param_effects self n v :
  logging_effects self (add_param self n v) (event_of (Call_add_param n v)).
Proof.
  unfold logging_effects, add_param.
  destruct n as [| b0 | z0 | bits0 | nm | by0 | d0 | l0 | cls0 oid0 | params0]; simpl event_of; try logged_one.
  destruct (String.eqb nm ""); [logged_one | put_or_skip self].
Qed.

Lemma add_metric_effects self n v e :
  logging_effects self (add_metric self n v e) (event_of (Call_add_metric n v e)).
Proof.
  unfold logging_effects, add_metric.
  destruct n as [| b0 | z0 | bits0 | nm | by0 | d0 | l0 | cls0 oid0 | params0]; simpl event_of; try logged_one.
  destruct (String.eqb nm ""); simpl; [logged_one |].
  destruct (is_number v); simpl; [| logged_one].
  destruct (is_none e); simpl; [put_or_skip self |].
  destruct (is_number e); simpl; [put_or_skip self | logged_one].
Qed.

Lemma add_duration_at_epoch_effects self n s e :
  logging_effects self (add_duration_at_epoch self n s e)
    (event_of (Call_add_duration_at_epoch n s e)).
Proof.
  unfold logging_effects, add_duration_at_epoch.
  destruct n as [| b0 | z0 | bits0 | nm | by0 | d0 | l0 | cls0 oid0 | params0]; simpl event_of; try logged_one.
  destruct (String.eqb nm ""); simpl; [logged_one |].
  destruct (is_number s); simpl; [| logged_one].
  destruct (is_none e) eqn:Hn; simpl.
  - destruct e; try discriminate Hn. simpl. logged_one.
  - destruct (is_number e); simpl; [put_or_skip self | logged_one].
Qed.

Lemma add_dataset_id_effects self i :
  logging_effects self (add_dataset_id self i) (event_of (Call_add_dataset_id i)).
Proof.
  unfold logging_effects, add_dataset_id. cbn [event_of].
  destruct (isinstance_any i [T_int; T_float; T_str]); simpl;
    [put_or_skip self | logged_one].
Qed.

Lemma logging_call_effects E self c :
  is_logging_call c = true ->
  logging_effects self (call E self c) (event_of c).
Proof.
  intros Hc. destruct c; try discriminate Hc; simpl call.
  - apply add_param_effects.
  - apply add_metric_effects.
  - apply add_duration_at_epoch_effects.
  - apply add_dataset_id_effects.
Qed.

Lemma logs_app h d : logs (h ++ d) = logs h ++ logs d.
Proof. unfold logs. apply flat_map_app. Qed.

(** X1.  What a call of [add_param], [add_metric], [add_duration_at_epoch]
    or [add_dataset_id] does to the world: it returns [None] and leaves the
    files, the clock and the requests alone.  With well-formed arguments
    (a [bool] counts as a number, and [add_metric] takes an epoch that is
    [None]) the queue grows by exactly the event the call describes when
    the Tracker is tracking, by nothing when it is not, and nothing is
    logged; with ill-formed arguments the queue is unchanged and exactly
    one warning is logged, also when the Tracker is not tracking. *)
Theorem logging_call_enqueues_its_event E self c w :
  is_logging_call c = true ->
  let w' := fst (call E self c w) in
  snd (call E self c w) = Return PNone
  /\ fs w' = fs w /\ ticks w' = ticks w
  /\ requests (hist w') = requests (hist w)
  /\ match event_of c with
     | Some ev =>
         puts (hist w') = puts (hist w) ++ (if tracking self then [ev] else [])
         /\ logs (hist w') = logs (hist w)
     | None =>
         puts (hist w') = puts (hist w)
         /\ exists msg, logs (hist w') = logs (hist w) ++ [(WARNING, msg)]
     end.
Proof.
  intros Hc w'. subst w'.
  destruct (logging_call_effects E self c Hc) as (d & Hrun & Hd).
  rewrite Hrun. cbn [fst snd extend hist fs ticks].
  rewrite puts_app, logs_app, requests_app.
  destruct (event_of c) as [ev |].
  - subst d. destruct (tracking self); simpl; rewrite ?app_nil_r; repeat split.
  - destruct Hd as [msg ->]. simpl. rewrite !app_nil_r. repeat split.
    exists msg. reflexivity.
Qed.

Lemma logging_call_enqueues_its_event_witness :
  puts (hist (fst (call (demo 201 true) (demo_tracker true)
                        (Call_add_metric (PStr "converged") (PBool true) PNone)
                        empty_world)))
  = [ {| ev_type := EVAL_PARAM; ev_value := PDict [(PStr "converged", PBool true)];
         ev_epoch := Some PNone |} ].
Proof.
  destruct (logging_call_enqueues_its_event (demo 201 true) (demo_tracker true)
              (Call_add_metric (PStr "converged") (PBool true) PNone) empty_world
              eq_refl) as (_ & _ & _ & _ & Hputs & _).
  rewrite Hputs. reflexivity.
Defined.

(** ** Logging several values at once *)

(** A loop over such calls: the events of the well-formed ones, in order,
    and one warning for each of the others. *)
Lemma for_each_logging {A} self (l : list A) (body : A -> M pyval)
    (ev : A -> option Event) :
  (forall x, logging_effects self (body x) (ev x)) ->
  exists D,
    (forall w, for_each l body w = (extend w D, Return tt))
    /\ puts D = (if tracking self then omap ev l else [])
    /\ length (logs D)
       = length (List.filter
                   (fun x => match ev x with None => true | Some _ => false end) l)
    /\ requests D = [].
Proof.
  intros Hbody. induction l as [| x l IH].
  - exists []. split; [intros w; rewrite extend_nil; reflexivity |].
    destruct (tracking self); repeat split.
  - destruct (Hbody x) as (d & Hrun & Hd).
    destruct IH as (D & HD & Hputs & Hlogs & Hreqs).
    exists (d ++ D). split.
    + intros w. simpl. unfold bind. rewrite Hrun, HD, extend_extend. reflexivity.
    + rewrite puts_app, logs_app, requests_app, length_app, Hputs, Hlogs, Hreqs.
      cbn [omap list_omap List.filter].
      destruct (ev x) as [e |].
      * subst d. destruct (tracking self); simpl; repeat split; reflexivity.
      * destruct Hd as [msg ->]. destruct (tracking self); simpl; repeat split;
          reflexivity.
Qed.

(** X2.  [add_multiple_params] on a dict returns [None] and has the same
    effects in every world.  When the Tracker is tracking it puts one
    [MODEL_PARAM] event for every entry whose key is a non-empty string, in
    the order of the dict, and logs one warning for every other entry (the
    later entries are still logged); it issues no request.  When the
    Tracker is not tracking it does nothing at all, not even the
    warnings. *)
Theorem add_multiple_params_in_order self d :
  exists D,
    (forall w, add_multiple_params self (PDict d) w = (extend w D, Return PNone))
    /\ puts D
       = (if tracking self
          then omap (fun kv => event_of (Call_add_param (fst kv) (snd kv))) d
          else [])
    /\ length (logs D)
       = (if tracking self
          then length (List.filter (fun kv => name_malformed (fst kv)) d)
          else 0%nat)
    /\ requests D = [].
Proof.
  unfold add_multiple_params. destruct (tracking self) eqn:Ht; simpl.
  - destruct (for_each_logging self d
                (fun kv => add_param self (fst kv) (snd kv))
                (fun kv => event_of (Call_add_param (fst kv) (snd kv))))
      as (D & HD & Hputs & Hlogs & Hreqs).
    { intros kv. apply add_param_effects. }
    exists D. split.
    + intros w. unfold bind. rewrite HD. reflexivity.
    + rewrite Hputs, Hlogs, Ht. split; [reflexivity |]. split; [| exact Hreqs].
      f_equal. apply List.filter_ext. intros [k v]. simpl.
      destruct k; try reflexivity. unfold name_malformed.
      destruct (String.eqb _ _); reflexivity.
  - exists []. split; [intros w; rewrite extend_nil; reflexivity | repeat split].
Qed.

(** X3.  [add_multiple_metrics] on a dict returns [None] and has the same
    effects in every world.  When the Tracker is tracking it puts one
    [EVAL_PARAM] event, carrying the given epoch, for every entry with a
    non-empty string key and a numeric value, in the order of the dict, and
    logs one warning for every other entry; with an epoch that is neither
    [None] nor a number it puts nothing and logs one warning per entry.  It
    issues no request, and does nothing at all when not tracking. *)
Theorem add_multiple_metrics_in_order self d epoch :
  exists D,
    (forall w,
        add_multiple_metrics self (PDict d) epoch w = (extend w D, Return PNone))
    /\ puts D
       = (if tracking self
          then omap (fun kv => event_of (Call_add_metric (fst kv) (snd kv) epoch)) d
          else [])
    /\ Forall (fun ev => ev_type ev = EVAL_PARAM /\ ev_epoch ev = Some epoch) (puts D)
    /\ (is_none epoch || is_number epoch = false ->
        puts D = [] /\ length (logs D) = (if tracking self then length d else 0%nat))
    /\ requests D = [].
Proof.
  assert (Hkind : forall l,
    Forall (fun ev => ev_type ev = EVAL_PARAM /\ ev_epoch ev = Some epoch)
           (omap (fun kv : pyval * pyval =>
                    event_of (Call_add_metric (fst kv) (snd kv) epoch)) l)).
  { induction l as [| [k v] l IH]; [constructor |].
    cbn [omap list_omap fst snd].
    destruct (event_of (Call_add_metric k v epoch)) as [ev |] eqn:Hev; [| exact IH].
    constructor; [| exact IH].
    simpl in Hev. destruct k as [| b0 | z0 | bits0 | nm | by0 | d0 | l0 | cls0 oid0 | params0]; try discriminate Hev.
    destruct (negb (String.eqb nm "") && is_number v && (is_none epoch || is_number epoch));
      [| discriminate Hev].
    injection Hev as <-. split; reflexivity. }
  assert (Hbad : is_none epoch || is_number epoch = false ->
    forall l, omap (fun kv : pyval * pyval =>
                      event_of (Call_add_metric (fst kv) (snd kv) epoch)) l = []
              /\ length (List.filter
                           (fun kv : pyval * pyval =>
                              match event_of (Call_add_metric (fst kv) (snd kv) epoch)
                              with None => true | Some _ => false end) l)
                 = length l).
  { intros He. induction l as [| [k v] l [IH1 IH2]]; [split; reflexivity |].
    assert (Hnone : event_of (Call_add_metric k v epoch) = None).
    { simpl. destruct k; try reflexivity. rewrite He, andb_false_r. reflexivity. }
    split.
    - cbn [omap list_omap fst snd]. rewrite Hnone. exact IH1.
    - cbn [List.filter fst snd]. rewrite Hnone. cbn [length]. f_equal. exact IH2. }
  unfold add_multiple_metrics. destruct (tracking self) eqn:Ht; simpl.
  - destruct (for_each_logging self d
                (fun kv => add_metric self (fst kv) (snd kv) epoch)
                (fun kv => event_of (Call_add_metric (fst kv) (snd kv) epoch)))
      as (D & HD & Hputs & Hlogs & Hreqs).
    { intros kv. apply add_metric_effects. }
    exists D. split.
    + intros w. unfold bind. rewrite HD. reflexivity.
    + rewrite Hputs, Hlogs, Ht. split; [reflexivity |].
      split; [apply Hkind |]. split; [| exact Hreqs].
      intros He. destruct (Hbad He d) as [H1 H2]. split; assumption.
  - exists []. split; [intros w; rewrite extend_nil; reflexivity |].
    repeat split; constructor.
Qed.

Lemma add_multiple_metrics_in_order_witness :
  exists D,
    (forall w,
        add_multiple_metrics (demo_tracker true)
          (PDict [(PStr "acc", PInt 1); (PStr "loss", PInt 0)]) (PStr "first") w
        = (extend w D, Return PNone))
    /\ puts D = [] /\ length (logs D) = 2%nat.
Proof.
  destruct (add_multiple_metrics_in_order (demo_tracker true)
              [(PStr "acc", PInt 1); (PStr "loss", PInt 0)] (PStr "first"))
    as (D & Hrun & _ & _ & Hbad & _).
  exists D. split; [exact Hrun |]. apply Hbad. reflexivity.
Defined.

(** ** What the methods leave alone *)

Section Frame.

Context {B : Type} (f : World -> B) (Hf : ignores_history f).

Lemma preserves_ret {A} (a : A) : preserves f (ret a).
Proof. intros w. reflexivity. Qed.

Lemma preserves_raise {A} (e : exn) : preserves f (@raise A e).
Proof. intros w. reflexivity. Qed.

Lemma preserves_emit e : preserves f (emit e).
Proof. intros w. apply Hf. Qed.

Lemma preserves_log lvl msg : preserves f (logger_log lvl msg).
Proof.
  unfold logger_log. destruct (level_no logger_level <=? level_no lvl).
  - apply preserves_emit.
  - apply preserves_ret.
Qed.

Lemma preserves_rest_call E r : preserves f (rest_call E r).
Proof. intros w. apply Hf. Qed.

Lemma preserves_fs_read path : preserves f (fs_read path).
Proof. intros w. reflexivity. Qed.

Lemma preserves_bind {A C} (c : M A) (k : A -> M C) :
  preserves f c -> (forall a, preserves f (k a)) -> preserves f (bind c k).
Proof.
  intros Hc Hk w. unfold bind. specialize (Hc w).
  destruct (c w) as [w' [a | e]]; simpl in *.
  - rewrite (Hk a w'). exact Hc.
  - exact Hc.
Qed.

Lemma preserves_for_each {A C} (l : list A) (body : A -> M C) :
  (forall x, preserves f (body x)) -> preserves f (for_each l body).
Proof.
  intros Hb. induction l as [| x l IH]; simpl.
  - apply preserves_ret.
  - apply preserves_bind; [apply Hb | intros _; apply IH].
Qed.

Lemma preserves_drop_non_numeric_metrics E d :
  preserves f (drop_non_numeric_metrics E d).
Proof.
  induction d as [| [k v] d IH]; simpl.
  - apply preserves_ret.
  - match goal with |- preserves _ (if ?b then _ else _) => destruct b end;
      [| exact IH].
    apply preserves_bind; [apply preserves_log | intros _; apply preserves_raise].
Qed.

Lemma preserves_get_compressed_picke E obj :
  preserves f (get_compressed_picke E obj).
Proof.
  unfold get_compressed_picke. destruct (cloudpickle_dumps E obj (-1)).
  - destruct (z_compress E _ _). apply preserves_ret.
  - apply preserves_raise.
Qed.

End Frame.

Ltac preserves_step Hf :=
  match goal with
  | |- preserves _ (bind _ _) => apply preserves_bind; [| intros ?]
  | |- preserves _ (logger_warning _) => apply (preserves_log _ Hf)
  | |- preserves _ (logger_info _) => apply (preserves_log _ Hf)
  | |- preserves _ (logger_debug _) => apply (preserves_log _ Hf)
  | |- preserves _ (event_queue_put _) => apply (preserves_emit _ Hf)
  | |- preserves _ (rest_post _ _ _ _ _) => apply (preserves_rest_call _ Hf)
  | |- preserves _ (rest_get _ _ _) => apply (preserves_rest_call _ Hf)
  | |- preserves _ (fs_read _) => apply preserves_fs_read
  | |- preserves _ (ret _) => apply preserves_ret
  | |- preserves _ (raise _) => apply preserves_raise
  | |- preserves _ (drop_non_numeric_metrics _ _) =>
      apply (preserves_drop_non_numeric_metrics _ Hf)
  | |- preserves _ (get_compressed_picke _ _) =>
      apply preserves_get_compressed_picke
  | |- preserves _ (decode_custom_object _ _) => unfold decode_custom_object
  | |- preserves _ (savefig _ _ _) => unfold savefig
  | |- preserves _ (open_rb _) => unfold open_rb
  | |- preserves _ (for_each _ _) => apply preserves_for_each; intros ?
  | |- preserves _ (add_multiple_params _ _) => unfold add_multiple_params
  | |- preserves _ (add_param _ _ _) => unfold add_param
  | |- preserves _ (add_metric _ _ _ _) => unfold add_metric
  | |- preserves _ (if ?b then _ else _) => destruct b eqn:?
  | |- preserves _ (match ?x with _ => _ end) => destruct x eqn:?
  | |- preserves _ (let _ := _ in _) => cbv zeta
  end.

Lemma fs_ignores_history : ignores_history fs.
Proof. intros w h. reflexivity. Qed.

Lemma ticks_ignores_history : ignores_history ticks.
Proof. intros w h. reflexivity. Qed.

(** Every method but [add_custom_plot] leaves anything that does not
    depend on the history as it was. *)
Lemma call_preserves {B} (f : World -> B) (Hf : ignores_history f) E self c :
  is_plot_call c = false -> preserves f (call E self c).
Proof.
  intros Hc. destruct c; try discriminate Hc; clear Hc; simpl;
    unfold add_param, add_multiple_params, add_metric, add_multiple_metrics,
      add_duration_at_epoch, add_dataset_id, add_custom_object, pull_custom_object,
      pull_params, add_image, add_model_params;
    repeat preserves_step Hf.
Qed.

Lemma add_custom_plot_keeps_clock E self name plt :
  preserves ticks (add_custom_plot E self name plt).
Proof.
  unfold add_custom_plot.
  repeat first
    [ preserves_step ticks_ignores_history
    | match goal with
      | |- preserves _ (fs_write _ _) => intros ?; reflexivity
      | |- preserves _ (fs_remove _) => intros ?; reflexivity
      end ].
Qed.

(** X4.  No method of the Tracker reads or advances the clock after
    construction, and no method but [add_custom_plot] touches the file
    system: a program that does not call [add_custom_plot] leaves every
    file as it was, [add_image] included, whatever its calls return or
    raise. *)
Theorem methods_keep_files_and_clock E self script w :
  ticks (fst (run_script E self script w)) = ticks w
  /\ (forallb (fun c => negb (is_plot_call c)) script = true ->
      fs (fst (run_script E self script w)) = fs w).
Proof.
  split.
  - apply (preserves_for_each ticks). intros c.
    destruct (is_plot_call c) eqn:Hc.
    + destruct c; try discriminate Hc. apply add_custom_plot_keeps_clock.
    + apply (call_preserves ticks ticks_ignores_history), Hc.
  - intros Hscript. revert w.
    change (preserves fs (run_script E self script)).
    unfold run_script. induction script as [| c script IH]; simpl.
    + apply preserves_ret.
    + simpl in Hscript. apply andb_prop in Hscript as [Hc Hscript].
      apply preserves_bind.
      * apply (call_preserves fs fs_ignores_history).
        destruct (is_plot_call c); [discriminate Hc | reflexivity].
      * intros _. apply IH, Hscript.
Qed.

Lemma methods_keep_files_and_clock_witness :
  fs (fst (run_script (demo 500 true) (demo_tracker true)
             [Call_add_image "cat.png" (PDict [(PStr "iou", PInt 1)]) PNone PNone;
              refused_upload; Call_pull_params (PInt 5)]
             {| hist := []; fs := {[ "cat.png" := [Byte.x89; Byte.x50] ]}; ticks := 3 |}))
  = {[ "cat.png" := [Byte.x89; Byte.x50] ]}.
Proof.
  apply (methods_keep_files_and_clock (demo 500 true) (demo_tracker true)).
  reflexivity.
Defined.

(** ** The kinds of effect a method can have *)

Lemma only_ret {A} P (a : A) : only P (ret a).
Proof. intros w. exists []. split; [symmetry; apply app_nil_r | reflexivity]. Qed.

Lemma only_raise {A} P (e : exn) : only P (@raise A e).
Proof. intros w. exists []. split; [symmetry; apply app_nil_r | reflexivity]. Qed.

Lemma only_emit P e : P e = true -> only P (emit e).
Proof. intros He w. exists [e]. split; [reflexivity | simpl; rewrite He; reflexivity]. Qed.

Lemma only_bind {A C} P (c : M A) (k : A -> M C) :
  only P c -> (forall a, only P (k a)) -> only P (bind c k).
Proof.
  intros Hc Hk w. unfold bind.
  destruct (Hc w) as (d1 & Hd1 & Ha1). destruct (c w) as [w' [a | e]]; simpl in *.
  - destruct (Hk a w') as (d2 & Hd2 & Ha2). exists (d1 ++ d2).
    rewrite Hd2, Hd1, app_assoc, forallb_app, Ha1, Ha2. split; reflexivity.
  - exists d1. split; assumption.
Qed.

Lemma only_for_each {A C} P (l : list A) (body : A -> M C) :
  (forall x, only P (body x)) -> only P (for_each l body).
Proof.
  intros Hb. induction l as [| x l IH]; simpl.
  - apply only_ret.
  - apply only_bind; [apply Hb | intros _; apply IH].
Qed.

(** A record below the logger's level is discarded: what [log.py]'s
    logger emits is at [INFO] or above. *)
Lemma script_log lvl msg : only script_effect (logger_log lvl msg).
Proof.
  unfold logger_log. destruct lvl; simpl.
  - apply only_ret.
  - apply only_emit. reflexivity.
  - apply only_emit. reflexivity.
Qed.

Lemma script_fs_read path : only script_effect (fs_read path).
Proof. intros w. exists []. split; [symmetry; apply app_nil_r | reflexivity]. Qed.

Lemma script_fs_write path data : only script_effect (fs_write path data).
Proof. intros w. exists []. split; [symmetry; apply app_nil_r | reflexivity]. Qed.

Lemma script_fs_remove path : only script_effect (fs_remove path).
Proof. intros w. exists []. split; [symmetry; apply app_nil_r | reflexivity]. Qed.

Lemma script_rest_get E c url : only script_effect (rest_get E c url).
Proof. intros w. exists [Req (Get url)]. split; reflexivity. Qed.

Lemma script_rest_post E c url data files :
  only script_effect (rest_post E c url data files).
Proof. intros w. exists [Req (Post url data files)]. split; reflexivity. Qed.

Lemma script_drop_non_numeric_metrics E d :
  only script_effect (drop_non_numeric_metrics E d).
Proof.
  induction d as [| [k v] d IH]; simpl.
  - apply only_ret.
  - match goal with |- only _ (if ?b then _ else _) => destruct b end; [| exact IH].
    apply only_bind; [apply script_log | intros _; apply only_raise].
Qed.

Lemma script_get_compressed_picke E obj :
  only script_effect (get_compressed_picke E obj).
Proof.
  unfold get_compressed_picke. destruct (cloudpickle_dumps E obj (-1)).
  - destruct (z_compress E _ _). apply only_ret.
  - apply only_raise.
Qed.

Ltac script_step :=
  match goal with
  | |- only _ (bind _ _) => apply only_bind; [| intros ?]
  | |- only _ (logger_warning _) => apply script_log
  | |- only _ (logger_info _) => apply script_log
  | |- only _ (logger_debug _) => apply script_log
  | |- only _ (event_queue_put _) => apply only_emit; reflexivity
  | |- only _ (rest_post _ _ _ _ _) => apply script_rest_post
  | |- only _ (rest_get _ _ _) => apply script_rest_get
  | |- only _ (fs_read _) => apply script_fs_read
  | |- only _ (fs_write _ _) => apply script_fs_write
  | |- only _ (fs_remove _) => apply script_fs_remove
  | |- only _ (ret _) => apply only_ret
  | |- only _ (raise _) => apply only_raise
  | |- only _ (drop_non_numeric_metrics _ _) => apply script_drop_non_numeric_metrics
  | |- only _ (get_compressed_picke _ _) => apply script_get_compressed_picke
  | |- only _ (decode_custom_object _ _) => unfold decode_custom_object
  | |- only _ (savefig _ _ _) => unfold savefig
  | |- only _ (open_rb _) => unfold open_rb
  | |- only _ (for_each _ _) => apply only_for_each; intros ?
  | |- only _ (add_multiple_params _ _) => unfold add_multiple_params
  | |- only _ (add_param _ _ _) => unfold add_param
  | |- only _ (add_metric _ _ _ _) => unfold add_metric
  | |- only _ (if ?b then _ else _) => destruct b eqn:?
  | |- only _ (match ?x with _ => _ end) => destruct x eqn:?
  | |- only _ (let _ := _ in _) => cbv zeta
  end.

Lemma call_script_effects E self c : only script_effect (call E self c).
Proof.
  destruct c; simpl;
    unfold add_param, add_multiple_params, add_metric, add_multiple_metrics,
      add_duration_at_epoch, add_dataset_id, add_custom_object, pull_custom_object,
      add_custom_plot, pull_params, add_image, add_model_params;
    repeat script_step.
Qed.

Lemma run_script_effects E self script : only script_effect (run_script E self script).
Proof. apply only_for_each. intros c. apply call_script_effects. Qed.

(** X5.  Whatever methods a program calls on a Tracker, with whatever
    arguments, and whether the calls return or raise, everything they add
    to the history is of one of three kinds: a log record at level [INFO]
    or [WARNING] (the [DEBUG] record of [add_custom_plot] is below the level
    [get_logger] sets and is never emitted), an event of type
    [MODEL_PARAM], [EVAL_PARAM], [DURATION_PARAM] or [DATASET_ID] (never a
    lifecycle event), or a [get] or [post] request (never the creation of
    an experiment).  No method starts or stops a thread or registers an
    exit callback. *)
Theorem methods_effects_by_kind E self script w :
  exists d,
    hist (fst (run_script E self script w)) = hist w ++ d
    /\ forallb script_effect d = true
    /\ Forall (fun r => fst r = INFO \/ fst r = WARNING) (logs d)
    /\ Forall (fun ev => ev_type ev <> EXPERIMENT_START /\ ev_type ev <> CODE_FILE
                         /\ ev_type ev <> EXPERIMENT_END) (puts d)
    /\ Forall (fun r => forall i f, r <> CreateExperiment i f) (requests d)
    /\ starts d = [] /\ stops d = [] /\ registrations d = [].
Proof.
  destruct (run_script_effects E self script w) as (d & Hd & Hk).
  exists d. split; [exact Hd |]. split; [exact Hk |].
  clear Hd. induction d as [| e d IH]; [repeat split; constructor |].
  simpl in Hk. apply andb_prop in Hk as [He Hk].
  destruct (IH Hk) as (Hl & Hp & Hr & Hs & Ht & Hg).
  destruct e as [lvl msg | ev | r | th | th | me |]; simpl in He; try discriminate He;
    simpl.
  - repeat split; try assumption. constructor; [| exact Hl].
    destruct lvl; [discriminate He | left | right]; reflexivity.
  - repeat split; try assumption. constructor; [| exact Hp].
    destruct (ev_type ev); try discriminate He; repeat split; discriminate.
  - repeat split; try assumption. constructor; [| exact Hr].
    destruct r; [discriminate He | |]; intros i f0; discriminate.
Qed.

(** ** The temporary file of [add_custom_plot] *)

(** X6.  When [add_custom_plot] uploads a plot (its arguments pass the
    checks and the Tracker is tracking), the file [./<name>.svg] it exports
    the plot to does not exist afterwards, whatever the answer of the
    service: a file of that name that was there before the call is
    overwritten and removed with it.  Every other file is as it was, and a
    call that does not upload (a name that is not a string, no plot, an
    empty plot, tracking off, a path the plot cannot be exported to)
    touches no file at all. *)
Theorem add_custom_plot_removes_its_file E self name plt w :
  fs (fst (add_custom_plot E self name plt w))
  = if upload_accepted E self (Call_add_custom_plot name plt) w
    then delete (plot_file name) (fs w)
    else fs w.
Proof.
  unfold upload_accepted, add_custom_plot.
  destruct name; simpl isinstance; rewrite ?andb_false_r;
    try (run_method; reflexivity).
  destruct (rest self) as [c |] eqn:Hr; simpl; [| run_method; reflexivity].
  destruct (tracking self) eqn:Ht; simpl; [| run_method; reflexivity].
  destruct plt as [p |]; simpl; [| run_method; reflexivity].
  destruct (has_data p) eqn:Hp; simpl; [| run_method; reflexivity].
  rewrite strip_plot_path. unfold savefig. cbn [plot_file].
  destruct (savefig_creates E _) eqn:Hs; simpl; [| run_method; reflexivity].
  unfold open_rb, rest_post, rest_call, fs_write, fs_read, fs_remove. run_method.
  rewrite lookup_insert_eq. simpl.
  match goal with |- context [if ?b then _ else _] => destruct b eqn:Hst end;
    simpl; rewrite lookup_insert_eq; simpl; apply delete_insert_eq.
Qed.

Lemma add_custom_plot_removes_its_file_witness :
  let files : gmap string bytes :=
    {[ "./loss.svg" := [Byte.x3c]; "notes.txt" := [Byte.x68] ]} in
  fs (fst (add_custom_plot (demo 201 true) (demo_tracker true) (PStr "loss")
             (Some {| has_data := true; svg := [Byte.x3c; Byte.x73] |})
             {| hist := []; fs := files; ticks := 0 |}))
  = {[ "notes.txt" := [Byte.x68] ]}.
Proof.
  intros files. rewrite add_custom_plot_removes_its_file. simpl.
  subst files. rewrite delete_insert_eq. apply delete_id. reflexivity.
Defined.

(** ** Pulling back *)

(** X7.  [pull_params] with a string id on a tracking Tracker issues
    exactly one [get].  On a 400 or a 403 it logs an [INFO] record and
    returns [None]; on every other status, an error status such as 500
    included, it logs nothing and hands the body to [json.loads]: it
    returns the decoded value, and raises when the body is not JSON. *)
Theorem pull_params_outcome E self c eid w :
  rest self = Some c -> tracking self = true ->
  let url := "api/experiment-pull-param/?experiment-id=" +:+ eid in
  let resp := serve E (hist w) (Get url) in
  let refused := (status_code resp =? 400) || (status_code resp =? 403) in
  exists d,
    pull_params E self (PStr eid) w
    = (extend w (Req (Get url) :: d),
       if refused then Return PNone
       else match json_loads E (text resp) with
            | Some params => Return params
            | None => Raise JSONDecodeError
            end)
    /\ if refused then exists msg, d = [Log INFO msg] else d = [].
Proof.
  intros Hr Ht url resp refused. subst refused.
  unfold pull_params, rest_get, rest_call, bind. rewrite Hr, Ht. simpl.
  fold url. fold resp. unfold extend.
  destruct (status_code resp =? 400); simpl.
  - eexists. split; [run_method; rewrite <- app_assoc; reflexivity |].
    eexists. reflexivity.
  - destruct (status_code resp =? 403); simpl.
    + eexists. split; [run_method; rewrite <- app_assoc; reflexivity |].
      eexists. reflexivity.
    + exists []. split; [| reflexivity].
      destruct (json_loads E (text resp)); reflexivity.
Qed.

Lemma pull_params_outcome_witness :
  exists d,
    pull_params (demo 500 true) (demo_tracker true) (PStr "0b1e") empty_world
    = (extend empty_world
         (Req (Get "api/experiment-pull-param/?experiment-id=0b1e") :: d),
       Return (PDict []))
    /\ d = [].
Proof.
  exact (pull_params_outcome (demo 500 true) (demo_tracker true)
           {| rest_address := "https://mc.example/"; rest_key := PStr "k";
              rest_experiment_name := PNone;
              project_id := PInt 7; model_id := PInt 42 |}
           "0b1e" empty_world eq_refl eq_refl).
Defined.

(** X8.  [pull_custom_object] with an id that is not a string, or is a
    string that does not have the form of a uuid4, logs one warning and
    returns [None] without issuing a request, whether or not the Tracker is
    tracking. *)
Theorem pull_custom_object_checks_id E self c id w :
  rest self = Some c ->
  (forall sid, id = PStr sid -> is_uuid4_pattern E sid = false) ->
  exists msg,
    pull_custom_object E self id w = (extend w [Log WARNING msg], Return PNone).
Proof.
  intros Hr Hid. unfold pull_custom_object. rewrite Hr.
  destruct id; try (eexists; run_method; reflexivity).
  rewrite (Hid s eq_refl). simpl. eexists. run_method. reflexivity.
Qed.

Lemma pull_custom_object_checks_id_witness :
  exists msg,
    pull_custom_object (demo 201 true) (demo_tracker false) (PStr "42") empty_world
    = (extend empty_world [Log WARNING msg], Return PNone).
Proof.
  apply (pull_custom_object_checks_id (demo 201 true) (demo_tracker false)
           {| rest_address := "https://mc.example/"; rest_key := PStr "k";
              rest_experiment_name := PNone;
              project_id := PInt 7; model_id := PInt 42 |}).
  - reflexivity.
  - intros sid Hsid. injection Hsid as <-. reflexivity.
Defined.

Lemma uploads_app h d : uploads (h ++ d) = uploads h ++ uploads d.
Proof. unfold uploads. apply flat_map_app. Qed.

(** X9.  Storing an object and pulling it back: given the contracts of the
    libraries (as for the encoding alone) and a service that answers a
    [get] with status 200 and the payload of the latest [post], an
    [add_custom_object] of an object that can be pickled, on a tracking
    Tracker, returns [None], and the [pull_custom_object] that follows it
    with a well-formed id returns the object. *)
Theorem custom_object_stored_then_pulled E self c nm obj sid w :
  (forall level wbits data chunk z',
      25 <= wbits <= 31 ->
      z_compress E (zlib_compressobj E level zlib_DEFLATED wbits) data = (chunk, z') ->
      zlib_decompress E (chunk ++ z_flush E z') wbits = Some data) ->
  (forall o protocol pickled,
      cloudpickle_dumps E o protocol = Some pickled ->
      pickle_loads E pickled = Some o) ->
  (forall h url payload,
      last (uploads h) = Some payload ->
      status_code (serve E h (Get url)) = 200
      /\ content (serve E h (Get url)) = payload) ->
  rest self = Some c -> tracking self = true ->
  is_Some (cloudpickle_dumps E obj (-1)) ->
  is_uuid4_pattern E sid = true ->
  let stored := add_custom_object E self (PStr nm) obj w in
  snd stored = Return PNone
  /\ snd (pull_custom_object E self (PStr sid) (fst stored)) = Return obj.
Proof.
  intros Hzlib Hpickle Hstore Hr Ht [pickled Hdumps] Hu stored. subst stored.
  unfold add_custom_object, get_compressed_picke. rewrite Hr, Ht, Hdumps. simpl.
  destruct (z_compress E (zlib_compressobj E (-1) zlib_DEFLATED 31) pickled)
    as [chunk z'] eqn:Hz.
  unfold rest_post, rest_call. run_method.
  set (payload := chunk ++ z_flush E z').
  assert (Hdecode : forall w', decode_custom_object E payload w' = (w', Return obj)).
  { intros w'. unfold decode_custom_object, payload.
    rewrite (Hzlib (-1) 31 pickled chunk z') by (lia || exact Hz).
    rewrite (Hpickle obj (-1) pickled Hdumps). reflexivity. }
  assert (Hpull : forall h1 tail,
    uploads tail = [] ->
    snd (pull_custom_object E self (PStr sid)
           {| hist := (h1 ++ [Req (Post ("api/experiment-custom-object/create/"
                                          +:+ fmt E (project_id c) +:+ "/")
                                       [("name", PStr nm);
                                        ("filesize", PInt (getsizeof E pickled));
                                        ("project", project_id c);
                                        ("ml_model", model_id c)]
                                       ("custom_object_file", payload))]) ++ tail;
              fs := fs w; ticks := ticks w |}) = Return obj).
  { intros h1 tail Htail.
    unfold pull_custom_object, rest_get, rest_call. rewrite Hr, Ht, Hu. simpl.
    run_method.
    match goal with
    | |- context [serve E ?h (Get ?url)] =>
        destruct (Hstore h url payload) as [Hst Hct]
    end.
    { rewrite !uploads_app, Htail. simpl. rewrite !app_nil_r. apply last_snoc. }
    rewrite Hst, Hct. simpl. rewrite Hdecode. reflexivity. }
  match goal with |- context [if ?b then _ else _] => destruct b end; simpl;
    (split; [reflexivity |]); apply Hpull; reflexivity.
Qed.

Lemma custom_object_stored_then_pulled_witness :
  snd (pull_custom_object echo (demo_tracker true) (PStr demo_uuid)
         (fst (add_custom_object echo (demo_tracker true) (PStr "model")
                 (PBytes [Byte.x80; Byte.x04]) empty_world)))
  = Return (PBytes [Byte.x80; Byte.x04]).
Proof.
  apply (custom_object_stored_then_pulled echo (demo_tracker true)
           {| rest_address := "https://mc.example/"; rest_key := PStr "k";
              rest_experiment_name := PNone;
              project_id := PInt 7; model_id := PInt 42 |}).
  - intros level wbits data chunk z' Hw Hz. simpl in *.
    injection Hz as <- <-. simpl.
    rewrite Byte.byte_dec_lb by reflexivity. reflexivity.
  - intros o protocol pickled Hd. simpl in *.
    destruct o; try discriminate. injection Hd as ->. reflexivity.
  - intros h url payload Hlast. simpl. rewrite Hlast. split; reflexivity.
  - reflexivity.
  - reflexivity.
  - eexists. reflexivity.
  - reflexivity.
Defined.

(** ** Model parameters that are turned down *)

(** X10.  [add_model_params] logs one warning, enqueues nothing and
    returns [None], whether or not the Tracker is tracking, when the model
    name is given and is not a string, when scikit-learn cannot be
    imported, or when the model is not an estimator. *)
Theorem add_model_params_turned_down E self model model_name w :
  truthy model_name && negb (isinstance model_name T_str) = true
  \/ sklearn_installed E = false
  \/ (forall params, model <> PEstimator params) ->
  exists msg,
    add_model_params E self model model_name w
    = (extend w [Log WARNING msg], Return PNone).
Proof.
  intros Hwhy. unfold add_model_params.
  destruct (truthy model_name && negb (isinstance model_name T_str)) eqn:Hn.
  { eexists. run_method. reflexivity. }
  destruct (sklearn_installed E) eqn:Hs; simpl.
  2:{ eexists. run_method. reflexivity. }
  destruct Hwhy as [Hwhy | [Hwhy | Hwhy]]; try discriminate Hwhy.
  destruct model; try (eexists; run_method; reflexivity).
  exfalso. eapply Hwhy. reflexivity.
Qed.

Lemma add_model_params_turned_down_witness :
  exists msg,
    add_model_params (demo 201 true) (demo_tracker true)
      (PEstimator [(PStr "C", PInt 1)]) (PInt 3) empty_world
    = (extend empty_world [Log WARNING msg], Return PNone).
Proof.
  apply add_model_params_turned_down. left. reflexivity.
Defined.

(** ** Construction in any process *)

(** What [__init__] does in any process: one object more, the others as
    they were; the new Tracker and what was added to the history. *)
Lemma Tracker_init_spec E k h n trk al ex p :
  let self0 := Tracker_attrs E k h n trk al ex (world p) in
  let ok := trk && created_in E p self0 in
  let r := Tracker_init E k h n trk al ex p in
  fst r = length (objs p)
  /\ exists self1 d,
       objs (snd r) = objs p ++ [self1]
       /\ world (snd r)
          = {| hist := hist (world p) ++ d; fs := fs (world p);
               ticks := S (ticks (world p)) |}
       /\ atexit_registry (snd r)
          = atexit_registry p ++ (if ok then [length (objs p)] else [])
       /\ current_tracker (snd r)
          = (if ok then Some (length (objs p)) else current_tracker p)
       /\ is_Some (rest self1)
       /\ tracking self1 = trk
       /\ _experiment_end self1 = None
       /\ _experiment_file self1 = Some (caller_file E)
       /\ experiment_id self1 = experiment_id self0
       /\ tracker_thread self1 = (if ok then Some Dispatcher else None)
       /\ requests d
          = (if trk then [CreateExperiment (experiment_id self0) (caller_file E)] else [])
       /\ starts d = (if ok then [WebSocket (ws_address E self0); Dispatcher] else [])
       /\ puts d
          = (if ok
             then [ {| ev_type := EXPERIMENT_START;
                       ev_value := PStr (_experiment_start self0); ev_epoch := None |};
                    {| ev_type := CODE_FILE;
                       ev_value := PDict [(PStr "filename", PStr (caller_file E));
                                          (PStr "experiment_id", experiment_id self0)];
                       ev_epoch := None |} ]
             else [])
       /\ stops d = []
       /\ registrations d = (if ok then [length (objs p)] else []).
Proof.
  destruct p as [[hi fi ti] os reg cur]. set (w := {| hist := hi; fs := fi; ticks := ti |}).
  intros self0 ok r. subst r ok. unfold created_in.
  unfold Tracker_init, lift, now.
  cbn [world objs atexit_registry current_tracker hist fs ticks].
  split; [reflexivity |].
  unfold _initialize_with. subst self0. cbn [tracking Tracker_attrs world].
  destruct trk; cbn [negb andb].
  - unfold lift, rest_create_experiment.
    cbn [world objs length hist fs ticks atexit_registry current_tracker
         host key experiment_name experiment_id].
    match goal with
    | |- context [create_experiment E ?a ?b ?i ?f] =>
        destruct (create_experiment E a b i f) as [flag c] eqn:Hc
    end.
    cbn [fst snd]. destruct flag; cbn [negb].
    + destruct al;
        cbv [in_world lift emit event_queue_put store set_current_tracker
             atexit_register world objs atexit_registry current_tracker
             hist fs ticks fst snd auto_log Tracker_attrs w];
        (destruct (decide (length os < length os)%nat) as [Hlt | _]; [lia |]);
        do 2 eexists; (split; [reflexivity |]);
        (split; [rewrite <- ?app_assoc; reflexivity |]);
        repeat split; try reflexivity; eexists; reflexivity.
    + unfold store. cbn [world objs atexit_registry current_tracker].
      destruct (decide (length os < length os)%nat) as [Hlt | _]; [lia |].
      do 2 eexists. split; [reflexivity |]. split; [reflexivity |].
      rewrite app_nil_r. repeat split; try reflexivity. eexists; reflexivity.
  - unfold store. cbn [world objs atexit_registry current_tracker].
    destruct (decide (length os < length os)%nat) as [Hlt | _]; [lia |].
    eexists _, []. split; [reflexivity |].
    split; [rewrite app_nil_r; reflexivity |].
    rewrite app_nil_r. repeat split; try reflexivity. eexists; reflexivity.
Qed.

Lemma Tracker_init_wf E k h n trk al ex p :
  registry_wf p -> registry_wf (snd (Tracker_init E k h n trk al ex p)).
Proof.
  intros Hwf.
  destruct (Tracker_init_spec E k h n trk al ex p)
    as (Hme & self1 & d & Hobjs & _ & Hreg & _ & _ & _ & _ & _ & _ & Hthread & _).
  intros me Hin. rewrite Hreg in Hin. rewrite Hobjs.
  apply in_app_iff in Hin as [Hin | Hin].
  - destruct (Hwf me Hin) as (self & Hlook & Hth).
    exists self. split; [apply lookup_app_l_Some, Hlook | exact Hth].
  - destruct (trk && created_in E p _); [| destruct Hin]. destruct Hin as [<- | []].
    exists self1. split; [apply list_lookup_middle; reflexivity | exact Hthread].
Qed.

(** X11.  Constructing a Tracker in any process, whatever its arguments
    and whatever the service answers.  The Trackers that exist stay as they
    are, and every registered callback, old or new, belongs to a Tracker
    that has its dispatcher.  When the code that calls the constructor
    belongs to a module, the new Tracker is added after the others; it has
    its REST connection and the path of the calling script, also when
    tracking is off or the experiment could not be created, and its end
    time is unset; its exit callback is registered exactly when tracking is
    on and the experiment was created.  When the calling code belongs to no
    module, the constructor raises [AttributeError] before the REST
    connection is made: there is no new Tracker, and nothing is added to
    the history, to the files or to the registry. *)
Theorem Tracker_new_keeps_registry E k h n trk al ex p :
  registry_wf p ->
  let self0 := Tracker_attrs E k h n trk al ex (world p) in
  let ok := trk && created_in E p self0 in
  let r := Tracker_new E k h n trk al ex p in
  registry_wf (fst r)
  /\ (forall me self, objs p !! me = Some self -> objs (fst r) !! me = Some self)
  /\ if caller_in_module E
     then snd r = Return (length (objs p))
          /\ atexit_registry (fst r)
             = atexit_registry p ++ (if ok then [length (objs p)] else [])
          /\ length (objs (fst r)) = S (length (objs p))
          /\ exists self1,
               objs (fst r) !! length (objs p) = Some self1
               /\ is_Some (rest self1)
               /\ _experiment_file self1 = Some (caller_file E)
               /\ _experiment_end self1 = None
               /\ tracking self1 = trk
               /\ tracker_thread self1 = (if ok then Some Dispatcher else None)
     else snd r = Raise AttributeError
          /\ objs (fst r) = objs p
          /\ atexit_registry (fst r) = atexit_registry p
          /\ hist (world (fst r)) = hist (world p)
          /\ fs (world (fst r)) = fs (world p).
Proof.
  intros Hwf self0 ok r. subst r.
  destruct (caller_in_module E) eqn:Hm.
  - rewrite Tracker_new_in_module by exact Hm. cbn [fst snd].
    destruct (Tracker_init_spec E k h n trk al ex p)
      as (Hme & self1 & d & Hobjs & _ & Hreg & _ & Hrest & Htrk & Hend & Hfile & _
          & Hthread & _).
    fold self0 in Hreg, Hthread. fold ok in Hreg, Hthread.
    split; [apply Tracker_init_wf, Hwf |].
    split; [intros me self Hlook; rewrite Hobjs; apply lookup_app_l_Some, Hlook |].
    split; [rewrite Hme; reflexivity |].
    split; [exact Hreg |].
    split; [rewrite Hobjs, length_app; simpl; lia |].
    exists self1.
    split; [rewrite Hobjs; apply list_lookup_middle; reflexivity |].
    repeat split; assumption.
  - rewrite Tracker_new_no_module by exact Hm. rewrite lift_world.
    cbn [fst snd objs atexit_registry world].
    split; [exact Hwf |]. split; [intros me self Hlook; exact Hlook |].
    repeat split.
Qed.

Lemma Tracker_new_keeps_registry_witness :
  registry_wf
    (fst (Tracker_new (demo 201 true) (PStr "k") (PStr "https://mc.example") PNone
            true false PNone
            (fst (Tracker_new (demo 201 true) (PStr "k") (PStr "https://mc.example")
                    PNone true false PNone (boot ∅))))).
Proof.
  apply Tracker_new_keeps_registry.
  apply Tracker_new_keeps_registry.
  intros me [].
Defined.

(** ** The exit callbacks of a process *)

(** One run of [_on_end] on a Tracker that has its dispatcher. *)
Lemma on_end_live E me p self :
  objs p !! me = Some self -> tracker_thread self = Some Dispatcher ->
  exists self',
    _on_end E me p
    = {| world := {| hist := hist (world p) ++ end_and_stop E (ticks (world p));
                     fs := fs (world p); ticks := S (ticks (world p)) |};
         objs := <[me := self']> (objs p);
         atexit_registry := atexit_registry p;
         current_tracker := current_tracker p |}
    /\ _experiment_end self' = Some (current_string_datetime E (ticks (world p)))
    /\ tracker_thread self' = Some Dispatcher.
Proof.
  intros Hlook Hth. destruct p as [[hi fi ti] os reg cur].
  cbn [objs] in Hlook. unfold _on_end. cbn [objs]. rewrite Hlook.
  cbv [in_world lift now event_queue_put emit store world objs atexit_registry
       current_tracker hist fs ticks fst snd tracker_thread].
  cbv [tracker_thread] in Hth. rewrite Hth.
  destruct (decide (me < length os)%nat) as [_ | Hge];
    [| exfalso; apply Hge; eapply lookup_lt_Some, Hlook].
  cbv [thread_stop emit hist fs ticks].
  eexists. split; [unfold end_and_stop; rewrite <- app_assoc; reflexivity |].
  split; reflexivity.
Qed.

Lemma live_after_insert p p' me self' :
  objs p' = <[me := self']> (objs p) ->
  tracker_thread self' = Some Dispatcher ->
  forall i, live p i -> live p' i.
Proof.
  intros Hobjs Hth i (self & Hlook & Hs). unfold live. rewrite Hobjs.
  destruct (decide (i = me)) as [-> | Hne].
  - exists self'. split; [| exact Hth].
    apply list_lookup_insert_eq. eapply lookup_lt_Some, Hlook.
  - exists self. split; [| exact Hs].
    rewrite list_lookup_insert_ne by congruence. exact Hlook.
Qed.

Lemma ended_after_insert p p' me self' t :
  objs p' = <[me := self']> (objs p) ->
  _experiment_end self' = Some t ->
  forall i, ended p i -> ended p' i.
Proof.
  intros Hobjs He i (self & t' & Hlook & Hs). unfold ended. rewrite Hobjs.
  destruct (decide (i = me)) as [-> | Hne].
  - exists self', t. split; [| exact He].
    apply list_lookup_insert_eq. eapply lookup_lt_Some, Hlook.
  - exists self, t'. split; [| exact Hs].
    rewrite list_lookup_insert_ne by congruence. exact Hlook.
Qed.

(** Running a list of callbacks, each on a Tracker that has its
    dispatcher. *)
Lemma run_callbacks E r :
  forall p,
    (forall me, In me r -> live p me) ->
    let p' := fold_left (fun p me => _on_end E me p) r p in
    hist (world p')
    = hist (world p) ++ flat_map (end_and_stop E) (seq (ticks (world p)) (length r))
    /\ fs (world p') = fs (world p)
    /\ atexit_registry p' = atexit_registry p
    /\ length (objs p') = length (objs p)
    /\ (forall i, live p i -> live p' i)
    /\ (forall i, ended p i -> ended p' i)
    /\ (forall me, In me r -> ended p' me).
Proof.
  induction r as [| me r IH]; intros p Hlive; simpl.
  - rewrite app_nil_r. repeat split; try tauto.
  - destruct (Hlive me (or_introl eq_refl)) as (self & Hlook & Hth).
    destruct (on_end_live E me p self Hlook Hth) as (self' & Hrun & Hend & Hth').
    assert (Hobjs : objs (_on_end E me p) = <[me := self']> (objs p))
      by (rewrite Hrun; reflexivity).
    assert (Hl1 : forall i, live p i -> live (_on_end E me p) i)
      by (apply (live_after_insert p _ me self' Hobjs Hth')).
    assert (He1 : forall i, ended p i -> ended (_on_end E me p) i)
      by (apply (ended_after_insert p _ me self' _ Hobjs Hend)).
    assert (Hme : ended (_on_end E me p) me).
    { exists self', (current_string_datetime E (ticks (world p))).
      split; [| exact Hend]. rewrite Hobjs.
      apply list_lookup_insert_eq. eapply lookup_lt_Some, Hlook. }
    destruct (IH (_on_end E me p)) as (Hh & Hf & Hr & Hn & Hl & He & Hin).
    { intros i Hi. apply Hl1, Hlive. right. exact Hi. }
    rewrite Hh, Hf, Hr, Hn. rewrite Hrun at 1 2 3 4 5.
    cbn [world hist fs ticks atexit_registry objs].
    rewrite length_insert, <- app_assoc.
    repeat split; try reflexivity.
    + intros i Hi. apply Hl, Hl1, Hi.
    + intros i Hi. apply He, He1, Hi.
    + intros i [<- | Hi]; [apply He, Hme | apply Hin, Hi].
Qed.

Lemma end_and_stop_counts E n t :
  length (end_events (flat_map (end_and_stop E) (seq t n))) = n
  /\ stops (flat_map (end_and_stop E) (seq t n)) = repeat Dispatcher n.
Proof.
  revert t. induction n as [| n IH]; intros t; [split; reflexivity |].
  destruct (IH (S t)) as [He Hs]. unfold end_events in *. simpl.
  rewrite He, Hs. split; reflexivity.
Qed.

(** X12.  Interpreter termination in a process with any number of
    Trackers, each registered callback belonging to a Tracker that has its
    dispatcher: every callback runs once, the last registered first, and
    each run adds to the history one [EXPERIMENT_END] event, carrying the
    time read at that moment, immediately followed by one [stop()] of the
    dispatcher.  Nothing else is added, no file and no registration
    changes, no Tracker appears or disappears, and afterwards every
    registered Tracker has its end time set. *)
Theorem run_atexit_ends_every_tracker E p :
  registry_wf p ->
  let p' := run_atexit E p in
  let n := length (atexit_registry p) in
  hist (world p')
  = hist (world p) ++ flat_map (end_and_stop E) (seq (ticks (world p)) n)
  /\ length (end_events (flat_map (end_and_stop E) (seq (ticks (world p)) n))) = n
  /\ stops (flat_map (end_and_stop E) (seq (ticks (world p)) n)) = repeat Dispatcher n
  /\ fs (world p') = fs (world p)
  /\ atexit_registry p' = atexit_registry p
  /\ length (objs p') = length (objs p)
  /\ forall me, In me (atexit_registry p) -> ended p' me.
Proof.
  intros Hwf p' n. subst p' n. unfold run_atexit.
  destruct (run_callbacks E (rev (atexit_registry p)) p)
    as (Hh & Hf & Hr & Hn & _ & _ & Hin).
  { intros me Hme. apply Hwf. apply in_rev. exact Hme. }
  rewrite length_rev in Hh.
  split; [exact Hh |]. split; [| split; [| split; [exact Hf | split; [exact Hr |
    split; [exact Hn |]]]]].
  - apply end_and_stop_counts.
  - apply end_and_stop_counts.
  - intros me Hme. apply Hin. apply in_rev. rewrite rev_involutive. exact Hme.
Qed.

Lemma run_atexit_ends_every_tracker_witness :
  let p := snd (Tracker_init (demo 201 true) (PStr "k") (PStr "https://mc.example") PNone
                  true false PNone
                  (snd (Tracker_init (demo 201 true) (PStr "k")
                          (PStr "https://mc.example") PNone true false PNone (boot ∅)))) in
  atexit_registry p = [0; 1]%nat
  /\ ended (run_atexit (demo 201 true) p) 0
  /\ ended (run_atexit (demo 201 true) p) 1.
Proof.
  intros p.
  assert (Hreg : atexit_registry p = [0; 1]%nat) by reflexivity.
  destruct (run_atexit_ends_every_tracker (demo 201 true) p)
    as (_ & _ & _ & _ & _ & _ & Hended).
  { do 2 apply Tracker_init_wf. intros me []. }
  split; [exact Hreg |].
  split; apply Hended; rewrite Hreg; simpl; tauto.
Defined.

(** ** The events of a whole run *)

Lemma run_script_keeps_clock E self script :
  preserves ticks (run_script E self script).
Proof.
  apply (preserves_for_each ticks). intros c.
  destruct (is_plot_call c) eqn:Hc.
  - destruct c; try discriminate Hc. apply add_custom_plot_keeps_clock.
  - apply (call_preserves ticks ticks_ignores_history), Hc.
Qed.

(** Every run, in three parts: what [__init__] did, what the calls of the
    program added, and what the exit callback added if it was registered. *)
Lemma run_process_history E files k h n trk al ex script :
  let self0 := Tracker_attrs E k h n trk al ex (world (boot files)) in
  let ok := trk && bootstrap_flag E self0 in
  let init := snd (Tracker_init E k h n trk al ex (boot files)) in
  let final := run_process E files k h n trk al ex script in
  exists self1 d,
    objs init = [self1]
    /\ tracking self1 = trk
    /\ atexit_registry final = (if ok then [0%nat] else [])
    /\ hist (fst (run_script E self1 script (world init))) = hist (world init) ++ d
    /\ forallb script_effect d = true
    /\ hist (world final)
       = hist (world init) ++ d ++ (if ok then end_and_stop E 1 else []).
Proof.
  intros self0 ok init final. subst init final. unfold run_process.
  destruct (Tracker_init_spec E k h n trk al ex (boot files))
    as (Hme & self1 & d0 & Hobjs & Hworld & Hreg & _ & _ & Htrk & _ & _ & _
        & Hthread & _).
  change (trk && created_in E (boot files)
                   (Tracker_attrs E k h n trk al ex (world (boot files))))
    with ok in Hreg, Hthread.
  destruct (Tracker_init E k h n trk al ex (boot files)) as [me p1].
  cbn [fst snd] in *. subst me. destruct p1 as [w1 o1 r1 c1].
  cbn [objs world atexit_registry boot length app] in *. subst o1 r1.
  cbn [lookup list_lookup]. rewrite lift_world.
  cbn [world objs atexit_registry current_tracker].
  destruct (run_script_effects E self1 script w1) as (d & Hd & Hk).
  pose proof (run_script_keeps_clock E self1 script w1) as Hclock.
  exists self1, d.
  destruct (run_script E self1 script w1) as [w2 o2]. cbn [fst] in *.
  split; [reflexivity |]. split; [exact Htrk |].
  unfold run_atexit. cbn [atexit_registry].
  destruct ok.
  - cbn [rev app fold_left].
    destruct (on_end_live E 0
                {| world := w2; objs := [self1]; atexit_registry := [0%nat];
                   current_tracker := c1 |} self1 eq_refl Hthread)
      as (self' & Hrun & _).
    rewrite Hrun. cbn [world hist atexit_registry].
    rewrite Hd, Hclock, Hworld. cbn [ticks]. rewrite <- app_assoc.
    repeat split; try assumption.
  - cbn [rev fold_left world atexit_registry]. rewrite Hd, app_nil_r.
    repeat split; try assumption.
Qed.

(** X13.  The events of a whole run, in the order they are put on the
    queue.  When tracking is on and the experiment was created, the first
    event is [EXPERIMENT_START] with the time read at construction, the
    second is [CODE_FILE] with the path of the calling script and the
    experiment id, the last is [EXPERIMENT_END] with the time read at exit,
    and between them are the events of the program's calls, none of which is
    of one of these three types; the same holds when a call of the program
    raises.  Otherwise the events of the program's calls are all there is. *)
Theorem run_events_in_order E files k h n trk al ex script :
  let self0 := Tracker_attrs E k h n trk al ex (world (boot files)) in
  let ok := trk && bootstrap_flag E self0 in
  let final := run_process E files k h n trk al ex script in
  exists user,
    puts (hist (world final))
    = (if ok
       then [ {| ev_type := EXPERIMENT_START;
                 ev_value := PStr (current_string_datetime E 0); ev_epoch := None |};
              {| ev_type := CODE_FILE;
                 ev_value := PDict [(PStr "filename", PStr (caller_file E));
                                    (PStr "experiment_id", experiment_id self0)];
                 ev_epoch := None |} ]
       else [])
      ++ user
      ++ (if ok
          then [ {| ev_type := EXPERIMENT_END;
                    ev_value := PStr (current_string_datetime E 1);
                    ev_epoch := None |} ]
          else [])
    /\ Forall (fun ev => ev_type ev = MODEL_PARAM \/ ev_type ev = EVAL_PARAM
                         \/ ev_type ev = DURATION_PARAM \/ ev_type ev = DATASET_ID)
              user.
Proof.
  intros self0 ok final. subst final.
  destruct (run_process_history E files k h n trk al ex script)
    as (self1 & d & _ & _ & _ & _ & Hk & Hhist).
  destruct (Tracker_init_boot E files k h n trk al ex)
    as (s1 & h1 & Hinit & _ & _ & _ & Hputs & _).
  rewrite Hinit in Hhist. cbn [snd world hist] in Hhist.
  fold self0 in Hhist, Hputs. fold ok in Hhist, Hputs.
  exists (puts d). split.
  - rewrite Hhist, !puts_app, Hputs. destruct ok; reflexivity.
  - clear - Hk. induction d as [| e d IH]; [constructor |].
    simpl in Hk. apply andb_prop in Hk as [He Hk].
    destruct e as [lvl msg | ev | r | th | th | me |]; simpl in *;
      try discriminate He; try (apply IH, Hk).
    constructor; [| apply IH, Hk].
    destruct (ev_type ev); try discriminate He; tauto.
Qed.

(** X14.  A Tracker whose experiment could not be created still accepts
    values: with tracking on and a failed bootstrap, an [add_param] with a
    non-empty name puts its [MODEL_PARAM] event on the queue although no
    dispatcher thread was started to consume it; and since no exit callback
    was registered, no [EXPERIMENT_END] follows and nothing is stopped. *)
Theorem failed_bootstrap_still_enqueues E files k h n al ex nm v script :
  String.eqb nm "" = false ->
  bootstrap_flag E (Tracker_attrs E k h n true al ex (world (boot files))) = false ->
  let final :=
    run_process E files k h n true al ex (Call_add_param (PStr nm) v :: script) in
  starts (hist (world final)) = []
  /\ stops (hist (world final)) = []
  /\ atexit_registry final = []
  /\ end_events (hist (world final)) = []
  /\ exists later,
       puts (hist (world final))
       = {| ev_type := MODEL_PARAM; ev_value := PDict [(PStr nm, v)];
            ev_epoch := None |} :: later.
Proof.
  intros Hnm Hflag final. subst final.
  destruct (run_process_history E files k h n true al ex
              (Call_add_param (PStr nm) v :: script))
    as (self1 & d & _ & Htrk & Hreg & Hd & Hk & Hhist).
  destruct (Tracker_init_boot E files k h n true al ex)
    as (s1 & h1 & Hinit & _ & _ & Hstarts & Hputs & _ & Hstops & Hends & _).
  rewrite Hinit in Hhist, Hd. cbn [snd world hist andb] in *.
  rewrite Hflag in *. rewrite app_nil_r in Hhist.
  assert (Hscript : forallb (fun e => api_effect e) d = true).
  { clear - Hk. induction d as [| e d IH]; [reflexivity |].
    simpl in *. apply andb_prop in Hk as [He Hk]. rewrite (IH Hk), andb_true_r.
    destruct e as [lvl msg | ev | r | th | th | me |]; simpl in *;
      try discriminate He; try reflexivity.
    unfold is_end. destruct (ev_type ev); try discriminate He; reflexivity. }
  destruct (api_effects_projections d Hscript) as (Hds & Hdt & Hde & _).
  rewrite Hhist, starts_app, stops_app, end_events_app.
  rewrite Hstarts, Hstops, Hends, Hds, Hdt, Hde.
  split; [reflexivity |]. split; [reflexivity |]. split; [exact Hreg |].
  split; [reflexivity |].
  destruct (add_param_effects self1 (PStr nm) v) as (dc & Hrun & Hdc).
  simpl in Hdc. rewrite Hnm, Htrk in Hdc. subst dc.
  unfold run_script in Hd. simpl in Hd. unfold bind in Hd.
  change (call E self1 (Call_add_param (PStr nm) v)) with (add_param self1 (PStr nm) v)
    in Hd.
  rewrite Hrun in Hd.
  destruct (run_script_effects E self1 script
              (extend {| hist := h1; fs := files; ticks := 1 |}
                      [Put {| ev_type := MODEL_PARAM; ev_value := PDict [(PStr nm, v)];
                              ev_epoch := None |}]))
    as (d' & Hd' & _).
  unfold run_script in Hd'. rewrite Hd' in Hd. cbn [extend hist] in Hd.
  rewrite <- app_assoc in Hd. apply app_inv_head in Hd. subst d.
  exists (puts d'). rewrite puts_app, Hputs, puts_app. reflexivity.
Qed.

Lemma failed_bootstrap_still_enqueues_witness :
  exists later,
    puts (hist (world (run_process (demo 201 false) ∅ (PStr "k") (PStr "https://mc.example")
                         PNone true false PNone
                         [Call_add_param (PStr "lr") (PInt 1);
                          Call_add_dataset_id (PInt 3)])))
    = {| ev_type := MODEL_PARAM; ev_value := PDict [(PStr "lr", PInt 1)];
         ev_epoch := None |} :: later.
Proof.
  apply (failed_bootstrap_still_enqueues (demo 201 false) ∅ (PStr "k")
           (PStr "https://mc.example") PNone false PNone "lr" (PInt 1)
           [Call_add_dataset_id (PInt 3)]); reflexivity.
Defined.

(** X15.  The requests of a whole run: when tracking is on, the first
    request is the creation of the experiment, with the Tracker's id and
    the path of the calling script, issued once by [__init__]; no method
    and no exit callback ever issues another, so whatever follows are the
    [get] and [post] requests of the program's calls.  When tracking is off
    no request is issued at all. *)
Theorem run_requests E files k h n trk al ex script :
  let self0 := Tracker_attrs E k h n trk al ex (world (boot files)) in
  let final := run_process E files k h n trk al ex script in
  exists later,
    requests (hist (world final))
    = (if trk then [CreateExperiment (experiment_id self0) (caller_file E)] else [])
      ++ later
    /\ Forall (fun r => forall i f, r <> CreateExperiment i f) later
    /\ (trk = false -> later = []).
Proof.
  intros self0 final. subst final.
  destruct (run_process_history E files k h n trk al ex script)
    as (self1 & d & _ & Htrk & _ & Hd & Hk & Hhist).
  destruct (Tracker_init_boot E files k h n trk al ex)
    as (s1 & h1 & Hinit & _ & _ & _ & _ & Hreq & _).
  rewrite Hinit in Hhist, Hd. cbn [snd world hist] in Hhist, Hd.
  fold self0 in Hreq.
  exists (requests d). split; [| split].
  - rewrite Hhist, !requests_app, Hreq.
    destruct (trk && bootstrap_flag E _); simpl; rewrite ?app_nil_r; reflexivity.
  - clear - Hk. induction d as [| e d IH]; [constructor |].
    simpl in Hk. apply andb_prop in Hk as [He Hk].
    destruct e as [lvl msg | ev | r | th | th | me |]; simpl in *;
      try discriminate He; try (apply IH, Hk).
    constructor; [| apply IH, Hk].
    destruct r; [discriminate He | |]; intros i f0; discriminate.
  - intros Hoff. rewrite Hoff in Htrk.
    destruct (run_script_quiet E self1 script Htrk {| hist := h1; fs := files; ticks := 1 |})
      as [_ Hq].
    rewrite Hd, requests_app in Hq. cbn [hist] in Hq.
    apply (app_inv_head (requests h1)). rewrite app_nil_r. exact Hq.
Qed.

Lemma run_requests_witness :
  requests (hist (world (run_process (demo 201 true) ∅ (PStr "k")
                           (PStr "https://mc.example") PNone false false PNone
                           [refused_upload; Call_pull_params (PStr "0b1e")])))
  = [].
Proof.
  destruct (run_requests (demo 201 true) ∅ (PStr "k") (PStr "https://mc.example")
              PNone false false PNone [refused_upload; Call_pull_params (PStr "0b1e")])
    as (later & Hreq & _ & Hoff).
  rewrite Hreq, (Hoff eq_refl). reflexivity.
Defined.


(** ** Delivery order *)

Import Pipeline.



















(** In the pipeline of the specification the streaming transport is closed
    by the dispatcher's [stop()], whatever state the connection is in. *)
Lemma stop_closes_transport max_spins deadline s :
  conn (transport (stop max_spins deadline s)) = CLOSED.
Proof.
  unfold stop. cbn [transport conn].
  destruct (conn _); reflexivity.
Qed.



Example reconnect_scenario_wire :
  map sequence_number
      (wire (transport (exec 3 reconnect_scenario (init DISCONNECTED))))
  = [0; 1; 2; 3]%nat
  /\ dropped (exec 3 reconnect_scenario (init DISCONNECTED)) = [].
Proof. split; reflexivity. Qed.


(** When the transport is closed the dispatcher drops what it dequeues:
    what was sent is then a proper subsequence of the enqueue order. *)
Example closed_transport_drops :
  let s := exec 3 [Produce 0 (mkEvent DATASET_ID (PInt 1) None); Link close; Consume]
                (init CONNECTED) in
  wire (transport s) = [] /\ length (dropped s) = 1%nat.
Proof. split; reflexivity. Qed.
